(** * github_bot: collaborator reconciliation and the two command-line drivers

    A shallow embedding of [src/GithubManagement.ts] (the manifest flow) and
    of the interactive script (the second source file), with the properties
    of the repository's specification stated over it.

    Modelling choices.
    - A JavaScript string is a [string] (a list of 8-bit characters): the
      identities are GitHub logins, which are ASCII.  [toLowerCase] maps
      [A-Z] to [a-z] and leaves every other character alone.
    - A JavaScript value read from the manifest is a [Value]: the result of
      [JSON.parse], plus [VUndefined] for a property that is absent.
    - An [async] function is a computation in the monad [M]: it threads the
      world (the lines still to be read on standard input and the trace of
      everything observable done so far) and ends with a value, with a
      thrown error, or pending for ever on a prompt that is never answered.
      A [while (true)] loop takes a bound on its iterations; the theorems
      about the loops hold for every bound above the number of lines read.
    - The Octokit client is an oracle: each endpoint answers from the trace
      of the run so far and the arguments of the request, so the answer to a
      call may depend on every earlier call. *)

From Stdlib Require Import List String Ascii ZArith NArith Bool Arith Lia.
Import ListNotations.

Set Warnings "-register-all".

Open Scope string_scope.
Open Scope list_scope.

(* ------------------------------------------------------------------ *)
(** ** Strings *)

(** [String.prototype.toLowerCase] on one ASCII character. *)
Definition lowerChar (c : ascii) : ascii :=
  let n := N_of_ascii c in
  if ((65 <=? n) && (n <=? 90))%N then ascii_of_N (n + 32) else c.

(** [String.prototype.toLowerCase]. *)
Fixpoint toLowerCase (s : string) : string :=
  match s with
  | EmptyString => EmptyString
  | String c r => String (lowerChar c) (toLowerCase r)
  end.

(** [!s] for a string [s]: only the empty string is falsy. *)
Definition isEmptyString (s : string) : bool :=
  match s with
  | EmptyString => true
  | String _ _ => false
  end.

(** [Array.prototype.includes] on an array of strings. *)
Definition includes (l : list string) (x : string) : bool :=
  existsb (String.eqb x) l.

(** Case-insensitive equality, as the specification's data model defines
    it for identities: two strings are equal when their lowercase forms
    match. *)
Definition caseInsensitiveEq (a b : string) : Prop :=
  toLowerCase a = toLowerCase b.

(* ------------------------------------------------------------------ *)
(** ** JavaScript values and errors *)

(** What [JSON.parse] returns, and [VUndefined] for a missing property.
    An object keeps its members in the order of the text. *)
Inductive Value : Type :=
| VUndefined
| VNull
| VBool (b : bool)
| VNum (z : Z)
| VStr (s : string)
| VArr (elems : list Value)
| VObj (members : list (string * Value)).

(** A thrown error: its message, and the [status] property that the HTTP
    errors of the client carry. *)
Record Error : Type := mkError {
  message : string;
  status : option Z
}.

Definition TypeError (msg : string) : Error := mkError msg None.

(** The answer of a fallible primitive. *)
Inductive Result (A : Type) : Type :=
| Ok (a : A)
| Fail (e : Error).
Arguments Ok {A} a.
Arguments Fail {A} e.

(** Truthiness, [!!v]. *)
Definition truthy (v : Value) : bool :=
  match v with
  | VUndefined | VNull => false
  | VBool b => b
  | VNum z => negb (z =? 0)%Z
  | VStr s => negb (isEmptyString s)
  | VArr _ | VObj _ => true
  end.

(** [Array.isArray]. *)
Definition isArray (v : Value) : bool :=
  match v with
  | VArr _ => true
  | _ => false
  end.

(** The elements a [for ... of] or a [map] visits. *)
Definition elements (v : Value) : list Value :=
  match v with
  | VArr l => l
  | _ => []
  end.

(** Member lookup in a parsed object: a later member with the same key
    overrides an earlier one. *)
Fixpoint lookupMember (key : string) (members : list (string * Value)) : Value :=
  match members with
  | [] => VUndefined
  | (k, v) :: rest =>
      match lookupMember key rest with
      | VUndefined => if String.eqb k key then v else VUndefined
      | found => found
      end
  end.

(** [const { teamName, collaborators } = teamData]: a [TypeError] on [null]
    (and on [undefined]); on any other value the two properties, each
    [undefined] when the value has no such member. *)
Definition destructure (teamData : Value) : Result (Value * Value) :=
  match teamData with
  | VUndefined | VNull =>
      Fail (TypeError "Cannot destructure property 'teamName'")
  | VObj members =>
      Ok (lookupMember "teamName" members, lookupMember "collaborators" members)
  | _ => Ok (VUndefined, VUndefined)
  end.

(** [collab.toLowerCase()] on a value of the manifest: only a string has
    the method. *)
Definition valueToLowerCase (collab : Value) : Result string :=
  match collab with
  | VStr s => Ok (toLowerCase s)
  | _ => Fail (TypeError "collab.toLowerCase is not a function")
  end.

(** [collaborators.map((collab) => collab.toLowerCase())]: the first
    element without the method throws. *)
Fixpoint mapToLowerCase (collaborators : list Value) : Result (list string) :=
  match collaborators with
  | [] => Ok []
  | collab :: rest =>
      match valueToLowerCase collab with
      | Fail e => Fail e
      | Ok s =>
          match mapToLowerCase rest with
          | Fail e => Fail e
          | Ok l => Ok (s :: l)
          end
      end
  end.

(* ------------------------------------------------------------------ *)
(** ** The reconciler (GithubManagement.ts, lines 203-214) *)

(** [normalizedCollaborators.filter((collab) =>
      !normalizedCurrentCollaborators.includes(collab))]. *)
Definition collaboratorsToAdd
    (normalizedCollaborators normalizedCurrentCollaborators : list string)
    : list string :=
  filter (fun collab => negb (includes normalizedCurrentCollaborators collab))
         normalizedCollaborators.

(** [normalizedCurrentCollaborators.filter((collab) =>
      !normalizedCollaborators.includes(collab) && collab !== normalizedUsername)]. *)
Definition collaboratorsToRemove
    (normalizedCollaborators normalizedCurrentCollaborators : list string)
    (normalizedUsername : string) : list string :=
  filter (fun collab => negb (includes normalizedCollaborators collab)
                        && negb (String.eqb collab normalizedUsername))
         normalizedCurrentCollaborators.

(** The three normalisations and the two filters together: the desired
    list, the current list and the owner give [(toAdd, toRemove)]. *)
Definition reconcile (desired current : list string) (owner : string)
    : list string * list string :=
  let normalizedCurrentCollaborators := map toLowerCase current in
  let normalizedCollaborators := map toLowerCase desired in
  let normalizedUsername := toLowerCase owner in
  (collaboratorsToAdd normalizedCollaborators normalizedCurrentCollaborators,
   collaboratorsToRemove normalizedCollaborators normalizedCurrentCollaborators
                         normalizedUsername).

(* ------------------------------------------------------------------ *)
(** ** The monad of the drivers *)

(** How an [async] computation ends. *)
Inductive Outcome (A : Type) : Type :=
| Ret (a : A)          (* resolved with a value *)
| Throw (e : Error)    (* rejected *)
| Pending              (* awaits a prompt that standard input never answers *)
| OutOfFuel.           (* the bound on the iterations of a loop was too small *)
Arguments Ret {A} a.
Arguments Throw {A} e.
Arguments Pending {A}.
Arguments OutOfFuel {A}.

(** The world: the lines not yet read, and the trace, oldest event first. *)
Record World (E : Type) : Type := mkWorld {
  stdin : list string;
  trace : list E
}.
Arguments mkWorld {E} stdin trace.
Arguments stdin {E} w.
Arguments trace {E} w.

Definition M (E A : Type) : Type := World E -> Outcome A * World E.

Section Runtime.
Context {E : Type}.

Definition ret {A} (a : A) : M E A := fun w => (Ret a, w).

Definition throw {A} (e : Error) : M E A := fun w => (Throw e, w).

Definition bind {A B} (m : M E A) (k : A -> M E B) : M E B :=
  fun w =>
    match m w with
    | (Ret a, w') => k a w'
    | (Throw e, w') => (Throw e, w')
    | (Pending, w') => (Pending, w')
    | (OutOfFuel, w') => (OutOfFuel, w')
    end.

(** [try { m } catch (error) { handler error }]. *)
Definition tryCatch {A} (m : M E A) (handler : Error -> M E A) : M E A :=
  fun w =>
    match m w with
    | (Throw e, w') => handler e w'
    | r => r
    end.

(** Append one event to the trace. *)
Definition emit (ev : E) : M E unit :=
  fun w => (Ret tt, mkWorld (stdin w) (trace w ++ [ev])).

(** Lift a fallible pure step. *)
Definition liftResult {A} (r : Result A) : M E A :=
  match r with
  | Ok a => ret a
  | Fail e => throw e
  end.

(** [rl.question(query, ...)]: the query is written, then the next line
    of standard input answers; with no line left the promise stays
    pending. *)
Definition question (asked : string -> E) (query : string) : M E string :=
  fun w =>
    match stdin w with
    | [] => (Pending, mkWorld [] (trace w ++ [asked query]))
    | ans :: rest => (Ret ans, mkWorld rest (trace w ++ [asked query]))
    end.

(** [for (const x of xs) { await body x }]. *)
Fixpoint forOf {A} (xs : list A) (body : A -> M E unit) : M E unit :=
  match xs with
  | [] => ret tt
  | x :: rest => bind (body x) (fun _ => forOf rest body)
  end.

(** [while (true) { ... }]: the body says whether it reached [break]. *)
Fixpoint whileTrue (fuel : nat) (body : M E bool) : M E unit :=
  match fuel with
  | O => fun w => (OutOfFuel, w)
  | S fuel' =>
      bind body (fun broke => if broke then ret tt else whileTrue fuel' body)
  end.
End Runtime.

Declare Scope js_scope.
Delimit Scope js_scope with js.
Notation "x <- m ;; k" := (bind m (fun x => k))
  (at level 100, m at next level, right associativity) : js_scope.
Notation "m ;;; k" := (bind m (fun _ => k))
  (at level 100, right associativity) : js_scope.
Open Scope js_scope.

(* ------------------------------------------------------------------ *)
(** ** The manifest flow (GithubManagement.ts) *)

Module Manifest.

(** A request to the host: the Octokit endpoint and its arguments.  The
    repository name and, when the repository is created, the usernames
    come from the manifest as they are, so they are [Value]s. *)
Inductive Call : Type :=
| UsersGetAuthenticated
| ReposGet (owner : string) (repo : Value)
| ReposCreateForAuthenticatedUser (name : Value) (private : bool)
| ReposAddCollaborator (owner : string) (repo : Value) (username : Value)
                       (permission : string)
| ReposRemoveCollaborator (owner : string) (repo : Value) (username : Value)
| ReposListCollaborators (owner : string) (repo : Value).

(** The lines the program prints, one constructor per [console] call. *)
Inductive Message : Type :=
| ErrorFetchingUsername (error : Error)
| ErrorCheckingExistence (error : Error)
| RepositoryCreated (html_url : string)
| ErrorCreatingRepository (error : Error)
| UserAdded (username : Value) (owner : string) (repo : Value)
| ErrorAddingUser (username : Value) (error : Error)
| UserRemoved (username : Value) (owner : string) (repo : Value)
| ErrorRemovingUser (username : Value) (error : Error)
| ErrorListingCollaborators (error : Error)
| AuthenticatedAs (username : string)
| ErrorReadingJSON (error : Error)
| InvalidJSONFormat
| RepositoryExistsUpdating (teamName : Value)
| CollaboratorsUpdated
| RepositoryDoesNotExist (teamName : Value)
| RepositoryCreatedAndAdded
| ProgramCompleted.

(** What a run does, in order. *)
Inductive Event : Type :=
| Host (c : Call) (failure : option Error)   (* a request and whether it failed *)
| Log (m : Message)                          (* console.log *)
| LogError (m : Message)                     (* console.error *)
| Asked (query : string).                    (* the query of a prompt *)

(** The client: every endpoint answers from the trace so far. *)
Record Octokit : Type := mkOctokit {
  users_getAuthenticated : list Event -> Result string;
  repos_get : list Event -> string -> Value -> Result unit;
  repos_createForAuthenticatedUser :
    list Event -> Value -> bool -> Result string;
  repos_addCollaborator :
    list Event -> string -> Value -> Value -> string -> Result unit;
  repos_removeCollaborator :
    list Event -> string -> Value -> Value -> Result unit;
  repos_listCollaborators : list Event -> string -> Value -> Result (list string)
}.

(** The process environment: the token of [.env], and what reading and
    parsing the file at a path gives. *)
Record Env : Type := mkEnv {
  GITHUB_TOKEN : option string;
  readAndParse : string -> Result Value
}.

(** [await this.octokit.<endpoint>(...)]: the request is recorded with
    its fate, and a failure is thrown. *)
Definition request {A} (c : Call) (respond : list Event -> Result A)
    : M Event A :=
  fun w =>
    match respond (trace w) with
    | Ok a => (Ret a, mkWorld (stdin w) (trace w ++ [Host c None]))
    | Fail e => (Throw e, mkWorld (stdin w) (trace w ++ [Host c (Some e)]))
    end.

(** The constructor of [GitHubManager]: [!token] throws. *)
Definition newGitHubManager (env : Env) (octokit : Octokit)
    : M Event Octokit :=
  match GITHUB_TOKEN env with
  | Some (String _ _) => ret octokit
  | _ => throw (mkError "GitHub token not found. Please add it to the .env file." None)
  end.

Definition getAuthenticatedUsername (octokit : Octokit) : M Event string :=
  tryCatch
    (request UsersGetAuthenticated (users_getAuthenticated octokit))
    (fun error => emit (LogError (ErrorFetchingUsername error)) ;;; throw error).

(** [error.status === 404]. *)
Definition statusIs404 (error : Error) : bool :=
  match status error with
  | Some z => (z =? 404)%Z
  | None => false
  end.

Definition repositoryExists (octokit : Octokit) (owner : string)
    (repoName : Value) : M Event bool :=
  tryCatch
    (request (ReposGet owner repoName)
             (fun h => repos_get octokit h owner repoName) ;;;
     ret true)
    (fun error =>
       if statusIs404 error then ret false
       else emit (LogError (ErrorCheckingExistence error)) ;;; throw error).

Definition createRepository (octokit : Octokit) (repoName : Value)
    (isPrivate : bool) : M Event unit :=
  tryCatch
    (html_url <- request (ReposCreateForAuthenticatedUser repoName isPrivate)
                   (fun h => repos_createForAuthenticatedUser octokit h
                               repoName isPrivate) ;;
     emit (Log (RepositoryCreated html_url)))
    (fun error => emit (LogError (ErrorCreatingRepository error))).

Definition addUserToRepository (octokit : Octokit) (owner : string)
    (repoName username : Value) : M Event unit :=
  tryCatch
    (request (ReposAddCollaborator owner repoName username "push")
             (fun h => repos_addCollaborator octokit h owner repoName
                         username "push") ;;;
     emit (Log (UserAdded username owner repoName)))
    (fun error => emit (LogError (ErrorAddingUser username error))).

Definition removeUserFromRepository (octokit : Octokit) (owner : string)
    (repoName username : Value) : M Event unit :=
  tryCatch
    (request (ReposRemoveCollaborator owner repoName username)
             (fun h => repos_removeCollaborator octokit h owner repoName
                         username) ;;;
     emit (Log (UserRemoved username owner repoName)))
    (fun error => emit (LogError (ErrorRemovingUser username error))).

Definition listCollaborators (octokit : Octokit) (owner : string)
    (repoName : Value) : M Event (list string) :=
  tryCatch
    (request (ReposListCollaborators owner repoName)
             (fun h => repos_listCollaborators octokit h owner repoName))
    (fun error => emit (LogError (ErrorListingCollaborators error)) ;;;
                  throw error).

Definition promptFilePath (query : string) : M Event string :=
  question Asked query.

(** The branch taken when the repository exists (lines 198-226). *)
Definition updateCollaborators (manager : Octokit) (username : string)
    (teamName collaborators : Value) : M Event unit :=
  emit (Log (RepositoryExistsUpdating teamName)) ;;;
  currentCollaborators <- listCollaborators manager username teamName ;;
  let normalizedCurrentCollaborators := map toLowerCase currentCollaborators in
  normalizedCollaborators <- liftResult (mapToLowerCase (elements collaborators)) ;;
  let normalizedUsername := toLowerCase username in
  let toAdd :=
    collaboratorsToAdd normalizedCollaborators normalizedCurrentCollaborators in
  let toRemove :=
    collaboratorsToRemove normalizedCollaborators normalizedCurrentCollaborators
                          normalizedUsername in
  forOf toAdd (fun collab =>
    addUserToRepository manager username teamName (VStr collab)) ;;;
  forOf toRemove (fun collab =>
    removeUserFromRepository manager username teamName (VStr collab)) ;;;
  emit (Log CollaboratorsUpdated).

(** The branch taken when it does not (lines 229-237). *)
Definition createAndAdd (manager : Octokit) (username : string)
    (teamName collaborators : Value) : M Event unit :=
  emit (Log (RepositoryDoesNotExist teamName)) ;;;
  createRepository manager teamName true ;;;
  forOf (elements collaborators) (fun collab =>
    addUserToRepository manager username teamName collab) ;;;
  emit (Log RepositoryCreatedAndAdded).

(** The main function (lines 164-241). *)
Definition main (env : Env) (octokit : Octokit) : M Event unit :=
  manager <- newGitHubManager env octokit ;;
  username <- getAuthenticatedUsername manager ;;
  emit (Log (AuthenticatedAs username)) ;;;
  filePath <- promptFilePath "Enter the JSON file path: " ;;
  match readAndParse env filePath with
  | Fail error => emit (LogError (ErrorReadingJSON error))
  | Ok teamData =>
      fields <- liftResult (destructure teamData) ;;
      let '(teamName, collaborators) := fields in
      if negb (truthy teamName) || negb (isArray collaborators) then
        emit (LogError InvalidJSONFormat)
      else
        repoExists <- repositoryExists manager username teamName ;;
        (if repoExists : bool then
           updateCollaborators manager username teamName collaborators
         else
           createAndAdd manager username teamName collaborators) ;;;
        emit (Log ProgramCompleted)
  end.

(** A run: the program started on fresh standard input. *)
Definition run (env : Env) (octokit : Octokit) (input : list string)
    : Outcome unit * World Event :=
  main env octokit (mkWorld input []).

(** The requests of a trace, in order. *)
Fixpoint calls (t : list Event) : list Call :=
  match t with
  | [] => []
  | Host c _ :: rest => c :: calls rest
  | _ :: rest => calls rest
  end.

(** Whether an event is a [console.error] line. *)
Definition isLogError (ev : Event) : bool :=
  match ev with
  | LogError _ => true
  | _ => false
  end.

(** The existence check is the one request whose failure may be an
    answer (not found) and not an error to report. *)
Definition isExistenceCheck (c : Call) : bool :=
  match c with
  | ReposGet _ _ => true
  | _ => false
  end.

(** Every failed request, the existence check apart, is followed at once
    by a [console.error] line. *)
Fixpoint failuresLogged (t : list Event) : bool :=
  match t with
  | [] => true
  | Host c (Some _) :: rest =>
      if isExistenceCheck c then failuresLogged rest
      else
        match rest with
        | ev :: _ => isLogError ev && failuresLogged rest
        | [] => false
        end
  | _ :: rest => failuresLogged rest
  end.

(** The last event of a trace is the completion message. *)
Definition completed (t : list Event) : bool :=
  match rev t with
  | Log ProgramCompleted :: _ => true
  | _ => false
  end.




(** The manifest is malformed in the specification's sense: the team
    name is missing or empty, or the collaborators are not an array. *)
Definition malformed (teamData : Value) : bool :=
  match destructure teamData with
  | Fail _ => true
  | Ok (teamName, collaborators) =>
      match teamName with
      | VUndefined | VStr EmptyString => true
      | _ => negb (isArray collaborators)
      end
  end.

(** [!token] is false. *)
Definition hasToken (env : Env) : bool :=
  match GITHUB_TOKEN env with
  | Some (String _ _) => true
  | _ => false
  end.

(** The trace once the login is known and the path has been asked. *)
Definition afterLogin (u : string) : list Event :=
  [Host UsersGetAuthenticated None; Log (AuthenticatedAs u);
   Asked "Enter the JSON file path: "].

(** The trace once the repository has been found to exist. *)
Definition afterExists (u : string) (t : Value) : list Event :=
  afterLogin u ++ [Host (ReposGet u t) None; Log (RepositoryExistsUpdating t)].

(** A run that gets past the input checks: the token is set, the host
    gives the login [u], and the file at [path] parses to a manifest whose
    team name [t] is truthy and whose collaborators [cs] are an array. *)
Definition Accepted (env : Env) (octokit : Octokit) (path u : string)
    (t cs : Value) : Prop :=
  hasToken env = true /\
  users_getAuthenticated octokit [] = Ok u /\
  (exists teamData, readAndParse env path = Ok teamData /\
                    destructure teamData = Ok (t, cs)) /\
  truthy t = true /\
  isArray cs = true.

(** The repository is found, and its collaborators are listed as [C]. *)
Definition Existing (octokit : Octokit) (u : string) (t : Value)
    (C : list string) : Prop :=
  repos_get octokit (afterLogin u) u t = Ok tt /\
  repos_listCollaborators octokit (afterExists u t) u t = Ok C.

(** The host answers the existence check with the not-found error [e]. *)
Definition Absent (octokit : Octokit) (u : string) (t : Value) (e : Error)
    : Prop :=
  repos_get octokit (afterLogin u) u t = Fail e /\ status e = Some 404%Z.

(** The repository is found, and listing its collaborators fails with [e]. *)
Definition Unlistable (octokit : Octokit) (u : string) (t : Value)
    (e : Error) : Prop :=
  repos_get octokit (afterLogin u) u t = Ok tt /\
  repos_listCollaborators octokit (afterExists u t) u t = Fail e.

(** The requests of the update branch for the lists [toAdd] and
    [toRemove]. *)
Definition addCalls (u : string) (t : Value) (users : list Value) : list Call :=
  map (fun v => ReposAddCollaborator u t v "push") users.

Definition removeCalls (u : string) (t : Value) (users : list Value)
    : list Call :=
  map (fun v => ReposRemoveCollaborator u t v) users.

(** What one step of a loop does: it returns, leaves standard input
    alone, and appends events whose only request is [c] and in which a
    failure is logged. *)
Definition Step (m : M Event unit) (c : Call) : Prop :=
  forall w, exists evs,
    m w = (Ret tt, mkWorld (stdin w) (trace w ++ evs)) /\
    calls evs = [c] /\ failuresLogged evs = true.

End Manifest.

(* ------------------------------------------------------------------ *)
(** ** The interactive flow (the second script) *)

Module Interactive.

(** A request to the host; every argument is a line typed by the user
    or the login of the authenticated user. *)
Inductive Call : Type :=
| UsersGetAuthenticated
| ReposCreateForAuthenticatedUser (name : string) (private : bool)
| ReposDelete (owner repo : string)
| ReposAddCollaborator (owner repo username permission : string)
| ReposRemoveCollaborator (owner repo username : string).

Inductive Message : Type :=
| ErrorFetchingUsername (error : Error)
| RepositoryCreated (html_url : string)
| ErrorCreatingRepository (error : Error)
| RepositoryDeleted (owner repo : string)
| ErrorDeletingRepository (error : Error)
| UserAdded (username owner repo : string)
| ErrorAddingUser (error : Error)
| UserRemoved (username owner repo : string)
| ErrorRemovingUser (error : Error)
| AuthenticatedAs (username : string)
| DeletionCanceled
| InvalidAction
| InvalidOption
| ProgramCompleted.

Inductive Event : Type :=
| Host (c : Call) (failure : option Error)
| Log (m : Message)
| LogError (m : Message)
| Asked (query : string).

Record Octokit : Type := mkOctokit {
  users_getAuthenticated : list Event -> Result string;
  repos_createForAuthenticatedUser :
    list Event -> string -> bool -> Result string;
  repos_delete : list Event -> string -> string -> Result unit;
  repos_addCollaborator :
    list Event -> string -> string -> string -> string -> Result unit;
  repos_removeCollaborator :
    list Event -> string -> string -> string -> Result unit
}.

Definition request {A} (c : Call) (respond : list Event -> Result A)
    : M Event A :=
  fun w =>
    match respond (trace w) with
    | Ok a => (Ret a, mkWorld (stdin w) (trace w ++ [Host c None]))
    | Fail e => (Throw e, mkWorld (stdin w) (trace w ++ [Host c (Some e)]))
    end.

Definition prompt (query : string) : M Event string :=
  question Asked query.

Definition newGitHubManager (token : option string) (octokit : Octokit)
    : M Event Octokit :=
  match token with
  | Some (String _ _) => ret octokit
  | _ => throw (mkError "GitHub token not found. Please add it to the .env file." None)
  end.

Definition getAuthenticatedUsername (octokit : Octokit) : M Event string :=
  tryCatch
    (request UsersGetAuthenticated (users_getAuthenticated octokit))
    (fun error => emit (LogError (ErrorFetchingUsername error)) ;;; throw error).

Definition createRepository (octokit : Octokit) (repoName : string)
    (isPrivate : bool) : M Event unit :=
  tryCatch
    (html_url <- request (ReposCreateForAuthenticatedUser repoName isPrivate)
                   (fun h => repos_createForAuthenticatedUser octokit h
                               repoName isPrivate) ;;
     emit (Log (RepositoryCreated html_url)))
    (fun error => emit (LogError (ErrorCreatingRepository error))).

Definition deleteRepository (octokit : Octokit) (owner repoName : string)
    : M Event unit :=
  tryCatch
    (request (ReposDelete owner repoName)
             (fun h => repos_delete octokit h owner repoName) ;;;
     emit (Log (RepositoryDeleted owner repoName)))
    (fun error => emit (LogError (ErrorDeletingRepository error))).

Definition addUserToRepository (octokit : Octokit)
    (owner repoName username : string) : M Event unit :=
  tryCatch
    (request (ReposAddCollaborator owner repoName username "push")
             (fun h => repos_addCollaborator octokit h owner repoName
                         username "push") ;;;
     emit (Log (UserAdded username owner repoName)))
    (fun error => emit (LogError (ErrorAddingUser error))).

Definition removeUserFromRepository (octokit : Octokit)
    (owner repoName username : string) : M Event unit :=
  tryCatch
    (request (ReposRemoveCollaborator owner repoName username)
             (fun h => repos_removeCollaborator octokit h owner repoName
                         username) ;;;
     emit (Log (UserRemoved username owner repoName)))
    (fun error => emit (LogError (ErrorRemovingUser error))).

Definition addQuery : string :=
  "Enter a collaborator's username (or press Enter to finish): ".
Definition removeQuery : string :=
  "Enter the collaborator's username to remove (or press Enter to finish): ".

(** One turn of a collaborator-entry loop: prompt, [break] on an empty
    answer, otherwise apply the action to the answer. *)
Definition entryTurn (query : string) (action : string -> M Event unit)
    : M Event bool :=
  collaborator <- prompt query ;;
  if isEmptyString collaborator then ret true
  else action collaborator ;;; ret false.

(** The loop of the create flow and of the add sub-action
    (lines 111-115 and 123-127). *)
Definition addLoop (fuel : nat) (manager : Octokit)
    (username repoName : string) : M Event unit :=
  whileTrue fuel
    (entryTurn addQuery (addUserToRepository manager username repoName)).

(** The loop of the remove sub-action (lines 129-133). *)
Definition removeLoop (fuel : nat) (manager : Octokit)
    (username repoName : string) : M Event unit :=
  whileTrue fuel
    (entryTurn removeQuery (removeUserFromRepository manager username repoName)).

(** The main function (lines 98-150).  [fuel] bounds the iterations of
    each loop. *)
Definition main (fuel : nat) (token : option string) (octokit : Octokit)
    : M Event unit :=
  manager <- newGitHubManager token octokit ;;
  username <- getAuthenticatedUsername manager ;;
  emit (Log (AuthenticatedAs username)) ;;;
  actionInput <- prompt "What do you want to do? (create/edit repository): " ;;
  let action := toLowerCase actionInput in
  (if String.eqb action "create" then
     repoName <- prompt "Enter the name of the new repository: " ;;
     createRepository manager repoName true ;;;
     addLoop fuel manager username repoName
   else if String.eqb action "edit" then
     repoName <- prompt "Enter the name of the repository to edit: " ;;
     editActionInput <-
       prompt "What do you want to do? (add/remove collaborator or delete): " ;;
     let editAction := toLowerCase editActionInput in
     if String.eqb editAction "add" then
       addLoop fuel manager username repoName
     else if String.eqb editAction "remove" then
       removeLoop fuel manager username repoName
     else if String.eqb editAction "delete" then
       confirm <-
         prompt "Are you sure you want to delete this repository? (yes/no): " ;;
       if String.eqb (toLowerCase confirm) "yes" then
         deleteRepository manager username repoName
       else
         emit (Log DeletionCanceled)
     else
       emit (Log InvalidAction)
   else
     emit (Log InvalidOption)) ;;;
  emit (Log ProgramCompleted).

Definition run (fuel : nat) (token : option string) (octokit : Octokit)
    (input : list string) : Outcome unit * World Event :=
  main fuel token octokit (mkWorld input []).

Fixpoint calls (t : list Event) : list Call :=
  match t with
  | [] => []
  | Host c _ :: rest => c :: calls rest
  | _ :: rest => calls rest
  end.

Definition isDeleteCall (c : Call) : bool :=
  match c with
  | ReposDelete _ _ => true
  | _ => false
  end.

(** [!token] is false. *)
Definition hasToken (token : option string) : bool :=
  match token with
  | Some (String _ _) => true
  | _ => false
  end.

(** The trace once the login is known and the action has been asked. *)
Definition afterLogin (u : string) : list Event :=
  [Host UsersGetAuthenticated None; Log (AuthenticatedAs u);
   Asked "What do you want to do? (create/edit repository): "].

(** What the action of one turn does: it returns, leaves standard input
    alone, and appends events whose only request is [c]. *)
Definition Step (m : M Event unit) (c : Call) : Prop :=
  forall w, exists evs,
    m w = (Ret tt, mkWorld (stdin w) (trace w ++ evs)) /\ calls evs = [c].

(** Every line is a username: none is empty. *)
Definition allNonEmpty (lines : list string) : bool :=
  forallb (fun s => negb (isEmptyString s)) lines.

(** The requests of an entry loop for the lines typed. *)
Definition addCalls (u repo : string) (names : list string) : list Call :=
  map (fun n => ReposAddCollaborator u repo n "push") names.

Definition removeCalls (u repo : string) (names : list string) : list Call :=
  map (fun n => ReposRemoveCollaborator u repo n) names.

End Interactive.

(* ------------------------------------------------------------------ *)
(** ** Errors and tests named in the statements on edge cases *)

(** The error of the constructor of [GitHubManager] when [GITHUB_TOKEN] is
    not set. *)
Definition tokenMissing : Error :=
  mkError "GitHub token not found. Please add it to the .env file." None.



(* ------------------------------------------------------------------ *)
(** ** Sample inputs *)

Module Samples.

(** The scenario of the specification: the manifest asks for alice and
    BOB, the repository has bob, carol and the owner. *)
Definition desired : list string := ["alice"; "BOB"].
Definition current : list string := ["bob"; "carol"; "owner1"].
Definition owner : string := "owner1".

(** A list and a copy of it in another casing. *)
Definition team : list string := ["alice"; "BOB"; "Carol"].
Definition teamRecased : list string := ["Alice"; "bob"; "CAROL"].

Definition serverError : Error := mkError "Internal Server Error" (Some 500%Z).
Definition forbidden : Error := mkError "Forbidden" (Some 403%Z).

(** A manifest that names alice twice, in two casings, and BOB. *)
Definition manifest : Value :=
  VObj [("teamName", VStr "team");
        ("collaborators", VArr (map VStr ["Alice"; "BOB"; "alice"]))].

(** A manifest without a team name. *)
Definition manifestNoTeamName : Value :=
  VObj [("collaborators", VArr (map VStr ["Alice"; "BOB"; "alice"]))].

Definition env : Manifest.Env :=
  Manifest.mkEnv (Some "ghp_token") (fun _ => Ok manifest).

Definition envNoTeamName : Manifest.Env :=
  Manifest.mkEnv (Some "ghp_token") (fun _ => Ok manifestNoTeamName).

(** A host on which the repository exists, with bob, Carol and the owner
    as collaborators; it refuses every request to add alice. *)
Definition hostExisting : Manifest.Octokit :=
  Manifest.mkOctokit
    (fun _ => Ok "Owner1")
    (fun _ _ _ => Ok tt)
    (fun _ _ _ => Ok "https://github.com/Owner1/team")
    (fun _ _ _ username _ =>
       match username with
       | VStr "alice" => Fail forbidden
       | _ => Ok tt
       end)
    (fun _ _ _ _ => Ok tt)
    (fun _ _ _ => Ok ["bob"; "Carol"; "owner1"]).


(** A host on which the repository exists and the listing fails. *)
Definition hostUnlistable : Manifest.Octokit :=
  Manifest.mkOctokit
    (fun _ => Ok "Owner1")
    (fun _ _ _ => Ok tt)
    (fun _ _ _ => Ok "https://github.com/Owner1/team")
    (fun _ _ _ _ _ => Ok tt)
    (fun _ _ _ _ => Ok tt)
    (fun _ _ _ => Fail serverError).

(** A host of the interactive flow that accepts everything. *)
Definition console : Interactive.Octokit :=
  Interactive.mkOctokit
    (fun _ => Ok "Owner1")
    (fun _ _ _ => Ok "https://github.com/Owner1/repo")
    (fun _ _ _ => Ok tt)
    (fun _ _ _ _ _ => Ok tt)
    (fun _ _ _ _ => Ok tt).

Definition unauthorized : Error := mkError "Bad credentials" (Some 401%Z).
Definition noSuchFile : Error := mkError "ENOENT: no such file or directory" None.

(** An environment without a token, and one whose file cannot be read. *)
Definition envNoToken : Manifest.Env :=
  Manifest.mkEnv None (fun _ => Ok manifest).

Definition envUnreadable : Manifest.Env :=
  Manifest.mkEnv (Some "ghp_token") (fun _ => Fail noSuchFile).

(** A manifest whose team name is the number zero, one whose second
    collaborator is a number, and one that asks for nobody. *)
Definition manifestZeroName : Value :=
  VObj [("teamName", VNum 0); ("collaborators", VArr [VStr "alice"])].



Definition envZeroName : Manifest.Env :=
  Manifest.mkEnv (Some "ghp_token") (fun _ => Ok manifestZeroName).



(** An environment whose file holds the JSON text [null]. *)
Definition envNull : Manifest.Env :=
  Manifest.mkEnv (Some "ghp_token") (fun _ => Ok VNull).

(** A host that rejects the credentials. *)
Definition hostNoLogin : Manifest.Octokit :=
  Manifest.mkOctokit
    (fun _ => Fail unauthorized)
    (fun _ _ _ => Ok tt)
    (fun _ _ _ => Ok "https://github.com/Owner1/team")
    (fun _ _ _ _ _ => Ok tt)
    (fun _ _ _ _ => Ok tt)
    (fun _ _ _ => Ok []).

(** A host whose existence check fails with a server error. *)
Definition hostBrokenCheck : Manifest.Octokit :=
  Manifest.mkOctokit
    (fun _ => Ok "Owner1")
    (fun _ _ _ => Fail serverError)
    (fun _ _ _ => Ok "https://github.com/Owner1/team")
    (fun _ _ _ _ _ => Ok tt)
    (fun _ _ _ _ => Ok tt)
    (fun _ _ _ => Ok []).



(** A host of the interactive flow that rejects the credentials, and one
    that refuses every request after the login. *)
Definition consoleNoLogin : Interactive.Octokit :=
  Interactive.mkOctokit
    (fun _ => Fail unauthorized)
    (fun _ _ _ => Ok "https://github.com/Owner1/repo")
    (fun _ _ _ => Ok tt)
    (fun _ _ _ _ _ => Ok tt)
    (fun _ _ _ _ => Ok tt).

Definition consoleRefusing : Interactive.Octokit :=
  Interactive.mkOctokit
    (fun _ => Ok "Owner1")
    (fun _ _ _ => Fail forbidden)
    (fun _ _ _ => Fail forbidden)
    (fun _ _ _ _ _ => Fail forbidden)
    (fun _ _ _ _ => Fail forbidden).

End Samples.

(* ------------------------------------------------------------------ *)
(** ** Strings: lowercase forms and membership *)

Lemma lowerChar_idempotent (c : ascii) : lowerChar (lowerChar c) = lowerChar c.
Proof.
  destruct c as [[] [] [] [] [] [] [] []]; reflexivity.
Qed.

Lemma toLowerCase_idempotent (s : string) :
  toLowerCase (toLowerCase s) = toLowerCase s.
Proof.
  induction s as [|c r IH]; simpl.
  - reflexivity.
  - now rewrite lowerChar_idempotent, IH.
Qed.

Lemma lowercase_member_fixed (l : list string) (x : string) :
  In x (map toLowerCase l) -> toLowerCase x = x.
Proof.
  intros H. apply in_map_iff in H. destruct H as [y [<- _]].
  apply toLowerCase_idempotent.
Qed.

Lemma includes_true (l : list string) (x : string) :
  includes l x = true <-> In x l.
Proof.
  unfold includes. rewrite existsb_exists. split.
  - intros [y [Hy Heq]]. apply String.eqb_eq in Heq. now subst.
  - intros H. exists x. split; [assumption | apply String.eqb_refl].
Qed.

Lemma includes_false (l : list string) (x : string) :
  includes l x = false <-> ~ In x l.
Proof.
  rewrite <- includes_true. destruct (includes l x); split; congruence.
Qed.

Lemma filter_nothing {A} (f : A -> bool) (l : list A) :
  (forall x, In x l -> f x = false) -> filter f l = [].
Proof.
  induction l as [|a l IH]; intros H; simpl.
  - reflexivity.
  - rewrite (H a (or_introl eq_refl)). apply IH.
    intros x Hx. apply H. now right.
Qed.

(* ------------------------------------------------------------------ *)
(** ** The reconciler *)

Lemma collaboratorsToAdd_In (N C : list string) (x : string) :
  In x (collaboratorsToAdd N C) <-> In x N /\ ~ In x C.
Proof.
  unfold collaboratorsToAdd. rewrite filter_In, negb_true_iff, includes_false.
  reflexivity.
Qed.

Lemma collaboratorsToRemove_In (N C : list string) (o x : string) :
  In x (collaboratorsToRemove N C o) <-> In x C /\ ~ In x N /\ x <> o.
Proof.
  unfold collaboratorsToRemove.
  rewrite filter_In, andb_true_iff, !negb_true_iff, includes_false,
    String.eqb_neq.
  reflexivity.
Qed.

Lemma reconcile_In (D C : list string) (O x : string) :
  (In x (fst (reconcile D C O)) <->
     In x (map toLowerCase D) /\ ~ In x (map toLowerCase C)) /\
  (In x (snd (reconcile D C O)) <->
     In x (map toLowerCase C) /\ ~ In x (map toLowerCase D) /\
     x <> toLowerCase O).
Proof.
  unfold reconcile; simpl. split.
  - apply collaboratorsToAdd_In.
  - apply collaboratorsToRemove_In.
Qed.

(** C1. After lowercasing every identity of the desired list, of the
    current list and of the owner, [toAdd] holds exactly the desired
    identities that are not current, and [toRemove] exactly the current
    identities that are neither desired nor the owner. *)
Theorem reconcile_membership (D C : list string) (O x : string) :
  (In x (fst (reconcile D C O)) <->
     In x (map toLowerCase D) /\ ~ In x (map toLowerCase C)) /\
  (In x (snd (reconcile D C O)) <->
     In x (map toLowerCase C) /\ ~ In x (map toLowerCase D) /\
     x <> toLowerCase O).
Proof.
  exact (reconcile_In D C O x).
Qed.

(** C2. Under case-insensitive equality of identities, [toAdd] and
    [toRemove] have no member in common, [toAdd] has none in common with the
    current list, [toRemove] none in common with the desired list, and the
    owner is not a member of [toRemove], whatever the desired list is. *)
Theorem reconcile_disjoint (D C : list string) (O : string) :
  (forall a r, In a (fst (reconcile D C O)) -> In r (snd (reconcile D C O)) ->
               ~ caseInsensitiveEq a r) /\
  (forall a c, In a (fst (reconcile D C O)) -> In c C -> ~ caseInsensitiveEq a c) /\
  (forall r d, In r (snd (reconcile D C O)) -> In d D -> ~ caseInsensitiveEq r d) /\
  (forall r, In r (snd (reconcile D C O)) -> ~ caseInsensitiveEq r O).
Proof.
  unfold caseInsensitiveEq.
  repeat split; intros.
  - destruct (reconcile_In D C O a) as [Ha _].
    destruct (reconcile_In D C O r) as [_ Hr].
    apply Ha in H as [HaD HaC]. apply Hr in H0 as [HrC _].
    intros Heq.
    rewrite (lowercase_member_fixed _ _ HaD),
      (lowercase_member_fixed _ _ HrC) in Heq.
    subst. contradiction.
  - destruct (reconcile_In D C O a) as [Ha _].
    apply Ha in H as [HaD HaC]. intros Heq.
    rewrite (lowercase_member_fixed _ _ HaD) in Heq.
    apply HaC. rewrite Heq. now apply in_map.
  - destruct (reconcile_In D C O r) as [_ Hr].
    apply Hr in H as [HrC [HrD _]]. intros Heq.
    rewrite (lowercase_member_fixed _ _ HrC) in Heq.
    apply HrD. rewrite Heq. now apply in_map.
  - destruct (reconcile_In D C O r) as [_ Hr].
    apply Hr in H as [HrC [_ HrO]]. intros Heq.
    rewrite (lowercase_member_fixed _ _ HrC) in Heq.
    contradiction.
Qed.

(** The four parts of C2 on the scenario of the specification, where
    neither result is empty. *)
Lemma reconcile_disjoint_witness :
  reconcile Samples.desired Samples.current Samples.owner
    = (["alice"], ["carol"]) /\
  ~ caseInsensitiveEq "alice" "carol" /\
  ~ caseInsensitiveEq "alice" "bob" /\
  ~ caseInsensitiveEq "carol" "BOB" /\
  ~ caseInsensitiveEq "carol" Samples.owner.
Proof.
  pose proof (reconcile_disjoint Samples.desired Samples.current Samples.owner)
    as [H1 [H2 [H3 H4]]].
  split; [reflexivity|].
  split; [apply H1; simpl; auto|].
  split; [apply H2; simpl; auto|].
  split; [apply H3; simpl; auto|].
  apply H4; simpl; auto.
Defined.

(** C5. Reconciling a list against a copy of itself whose members differ
    from it at most in letter casing gives an empty [toAdd] and an empty
    [toRemove]. *)
Theorem reconcile_idempotent (D D' : list string) (O : string) :
  map toLowerCase D = map toLowerCase D' ->
  reconcile D D' O = ([], []).
Proof.
  intros Heq. unfold reconcile. rewrite <- Heq. f_equal.
  - apply filter_nothing. intros x Hx.
    apply negb_false_iff, includes_true, Hx.
  - apply filter_nothing. intros x Hx.
    apply andb_false_iff. left.
    apply negb_false_iff, includes_true, Hx.
Qed.

Lemma reconcile_idempotent_witness :
  map toLowerCase Samples.team = map toLowerCase Samples.teamRecased /\
  reconcile Samples.team Samples.teamRecased "owner1" = ([], []).
Proof.
  split.
  - reflexivity.
  - apply (reconcile_idempotent Samples.team Samples.teamRecased "owner1").
    reflexivity.
Defined.

(* ------------------------------------------------------------------ *)
(** ** The monad: how [bind] runs *)

Lemma bind_Ret {E A B} (m : M E A) (k : A -> M E B) w a w' :
  m w = (Ret a, w') -> bind m k w = k a w'.
Proof. intros H. unfold bind. now rewrite H. Qed.

Lemma bind_Throw {E A B} (m : M E A) (k : A -> M E B) w e w' :
  m w = (Throw e, w') -> bind m k w = (Throw e, w').
Proof. intros H. unfold bind. now rewrite H. Qed.

(* ------------------------------------------------------------------ *)
(** ** The manifest flow: traces *)

Module ManifestFacts.
Import Manifest.

Lemma calls_app (a b : list Event) : calls (a ++ b) = calls a ++ calls b.
Proof.
  induction a as [|ev a IH]; simpl.
  - reflexivity.
  - destruct ev; simpl; now rewrite IH.
Qed.

Lemma failuresLogged_app (a b : list Event) :
  failuresLogged a = true -> failuresLogged b = true ->
  failuresLogged (a ++ b) = true.
Proof.
  induction a as [|ev a IH]; intros Ha Hb.
  - exact Hb.
  - destruct ev as [c [e|] | m | m | q]; cbn [failuresLogged app] in *;
      try (apply IH; assumption).
    destruct (isExistenceCheck c); [apply IH; assumption|].
    destruct a as [|ev' a']; [discriminate|].
    apply andb_true_iff in Ha as [Hlog Hrest].
    cbn [app]. rewrite Hlog. cbn [andb]. apply (IH Hrest Hb).
Qed.


Lemma addUserToRepository_step octokit owner repoName username :
  Step (addUserToRepository octokit owner repoName username)
       (ReposAddCollaborator owner repoName username "push").
Proof.
  intros w. unfold addUserToRepository, tryCatch, bind, request, emit.
  destruct (repos_addCollaborator octokit (trace w) owner repoName username "push")
    as [[]|e]; cbn [stdin trace]; rewrite <- app_assoc;
    eexists; (split; [reflexivity|]); split; reflexivity.
Qed.

Lemma removeUserFromRepository_step octokit owner repoName username :
  Step (removeUserFromRepository octokit owner repoName username)
       (ReposRemoveCollaborator owner repoName username).
Proof.
  intros w. unfold removeUserFromRepository, tryCatch, bind, request, emit.
  destruct (repos_removeCollaborator octokit (trace w) owner repoName username)
    as [[]|e]; cbn [stdin trace]; rewrite <- app_assoc;
    eexists; (split; [reflexivity|]); split; reflexivity.
Qed.

Lemma createRepository_step octokit repoName isPrivate :
  Step (createRepository octokit repoName isPrivate)
       (ReposCreateForAuthenticatedUser repoName isPrivate).
Proof.
  intros w. unfold createRepository, tryCatch, bind, request, emit.
  destruct (repos_createForAuthenticatedUser octokit (trace w) repoName isPrivate)
    as [url|e]; cbn [stdin trace]; rewrite <- app_assoc;
    eexists; (split; [reflexivity|]); split; reflexivity.
Qed.

(** A [for ... of] over steps issues one request per element, in order. *)
Lemma forOf_steps {A} (body : A -> M Event unit) (mk : A -> Call) :
  (forall x, Step (body x) (mk x)) ->
  forall xs w, exists evs,
    forOf xs body w = (Ret tt, mkWorld (stdin w) (trace w ++ evs)) /\
    calls evs = map mk xs /\ failuresLogged evs = true.
Proof.
  intros Hbody. induction xs as [|x xs IH]; intros w.
  - exists []. cbn. rewrite app_nil_r. destruct w; auto.
  - cbn [forOf]. unfold bind.
    destruct (Hbody x w) as [e1 [Hrun [Hc Hl]]]. rewrite Hrun.
    destruct (IH (mkWorld (stdin w) (trace w ++ e1))) as [e2 [Hrun2 [Hc2 Hl2]]].
    rewrite Hrun2. cbn [stdin trace]. exists (e1 ++ e2).
    rewrite app_assoc. split; [reflexivity|]. split.
    + rewrite calls_app, Hc, Hc2. reflexivity.
    + now apply failuresLogged_app.
Qed.


(** The existence check, by the answer of the host. *)
Lemma repositoryExists_run octokit owner repoName w :
  repositoryExists octokit owner repoName w =
    match repos_get octokit (trace w) owner repoName with
    | Ok _ =>
        (Ret true,
         mkWorld (stdin w) (trace w ++ [Host (ReposGet owner repoName) None]))
    | Fail e =>
        if statusIs404 e then
          (Ret false,
           mkWorld (stdin w)
                   (trace w ++ [Host (ReposGet owner repoName) (Some e)]))
        else
          (Throw e,
           mkWorld (stdin w)
                   (trace w ++ [Host (ReposGet owner repoName) (Some e);
                                LogError (ErrorCheckingExistence e)]))
    end.
Proof.
  unfold repositoryExists, tryCatch, bind, request, ret, emit, throw.
  destruct (repos_get octokit (trace w) owner repoName) as [[]|e].
  - reflexivity.
  - destruct (statusIs404 e); cbn [stdin trace].
    + reflexivity.
    + now rewrite <- app_assoc.
Qed.

Lemma statusIs404_true (e : Error) :
  statusIs404 e = true <-> status e = Some 404%Z.
Proof.
  unfold statusIs404. destruct (status e) as [z|].
  - rewrite Z.eqb_eq. split; congruence.
  - split; discriminate.
Qed.

(** A run up to the prompt, when the token is set and the login is known. *)
Lemma main_started env octokit path rest u :
  hasToken env = true ->
  users_getAuthenticated octokit [] = Ok u ->
  run env octokit (path :: rest) =
    match readAndParse env path with
    | Fail error =>
        (Ret tt, mkWorld rest (afterLogin u ++ [LogError (ErrorReadingJSON error)]))
    | Ok teamData =>
        (fields <- liftResult (destructure teamData) ;;
         let '(teamName, collaborators) := fields in
         if negb (truthy teamName) || negb (isArray collaborators) then
           emit (LogError InvalidJSONFormat)
         else
           repoExists <- repositoryExists octokit u teamName ;;
           (if repoExists : bool then
              updateCollaborators octokit u teamName collaborators
            else
              createAndAdd octokit u teamName collaborators) ;;;
           emit (Log ProgramCompleted)) (mkWorld rest (afterLogin u))
    end.
Proof.
  intros Htok Hauth.
  unfold run, main, newGitHubManager, hasToken in *.
  destruct (GITHUB_TOKEN env) as [[|c s]|]; try discriminate.
  unfold getAuthenticatedUsername, promptFilePath, question, tryCatch, bind,
    request, ret, emit.
  cbn [trace stdin]. rewrite Hauth. cbn [trace stdin app].
  destruct (readAndParse env path) as [teamData|error]; reflexivity.
Qed.

(** A run up to the existence check, when the manifest is accepted. *)
Lemma main_accepted env octokit path rest u t cs :
  Accepted env octokit path u t cs ->
  run env octokit (path :: rest) =
    (repoExists <- repositoryExists octokit u t ;;
     (if repoExists : bool then updateCollaborators octokit u t cs
      else createAndAdd octokit u t cs) ;;;
     emit (Log ProgramCompleted)) (mkWorld rest (afterLogin u)).
Proof.
  intros (Htok & Hauth & (teamData & Hread & Hfields) & Htruthy & Harr).
  rewrite (main_started env octokit path rest u Htok Hauth), Hread.
  unfold bind at 1. rewrite Hfields. cbn [liftResult ret].
  now rewrite Htruthy, Harr.
Qed.

(** The listing, by the answer of the host. *)
Lemma listCollaborators_run octokit owner repoName w :
  listCollaborators octokit owner repoName w =
    match repos_listCollaborators octokit (trace w) owner repoName with
    | Ok l =>
        (Ret l,
         mkWorld (stdin w)
                 (trace w ++ [Host (ReposListCollaborators owner repoName) None]))
    | Fail e =>
        (Throw e,
         mkWorld (stdin w)
                 (trace w ++ [Host (ReposListCollaborators owner repoName) (Some e);
                              LogError (ErrorListingCollaborators e)]))
    end.
Proof.
  unfold listCollaborators, tryCatch, bind, request, emit, throw.
  destruct (repos_listCollaborators octokit (trace w) owner repoName) as [l|e].
  - reflexivity.
  - cbn [stdin trace]. now rewrite <- app_assoc.
Qed.

(** The update branch from any world: the listing, then one request per
    member of [toAdd], then one per member of [toRemove]. *)
Lemma updateCollaborators_run octokit u t cs w C N :
  repos_listCollaborators octokit
    (trace w ++ [Log (RepositoryExistsUpdating t)]) u t = Ok C ->
  mapToLowerCase (elements cs) = Ok N ->
  exists adds removes,
    updateCollaborators octokit u t cs w =
      (Ret tt,
       mkWorld (stdin w)
         (trace w ++ [Log (RepositoryExistsUpdating t);
                      Host (ReposListCollaborators u t) None]
            ++ adds ++ removes ++ [Log CollaboratorsUpdated])) /\
    calls adds =
      addCalls u t (map VStr (collaboratorsToAdd N (map toLowerCase C))) /\
    calls removes =
      removeCalls u t
        (map VStr (collaboratorsToRemove N (map toLowerCase C) (toLowerCase u))) /\
    failuresLogged adds = true /\ failuresLogged removes = true.
Proof.
  intros Hlist Hnorm. unfold updateCollaborators.
  erewrite bind_Ret by reflexivity.
  erewrite bind_Ret
    by (rewrite listCollaborators_run; cbn [trace stdin]; rewrite Hlist;
        reflexivity).
  rewrite Hnorm. cbn [liftResult].
  erewrite bind_Ret by reflexivity.
  set (toAdd := collaboratorsToAdd N (map toLowerCase C)).
  set (toRemove := collaboratorsToRemove N (map toLowerCase C) (toLowerCase u)).
  match goal with |- context [bind (forOf toAdd ?body) _ ?w0] =>
    destruct (forOf_steps body
                (fun collab => ReposAddCollaborator u t (VStr collab) "push")
                (fun x => addUserToRepository_step octokit u t (VStr x))
                toAdd w0) as [adds [Hadds [Hca Hla]]]
  end.
  erewrite bind_Ret by exact Hadds.
  match goal with |- context [bind (forOf toRemove ?body) _ ?w0] =>
    destruct (forOf_steps body
                (fun collab => ReposRemoveCollaborator u t (VStr collab))
                (fun x => removeUserFromRepository_step octokit u t (VStr x))
                toRemove w0) as [removes [Hrem [Hcr Hlr]]]
  end.
  erewrite bind_Ret by exact Hrem.
  exists adds, removes. unfold emit; cbn [trace stdin].
  split; [|split; [|split; [|split]]]; try assumption.
  - f_equal. f_equal. rewrite <- !app_assoc. reflexivity.
  - rewrite Hca. unfold addCalls. now rewrite map_map.
  - rewrite Hcr. unfold removeCalls. now rewrite map_map.
Qed.

(** The create branch from any world: the creation, then one request per
    element of the manifest's array, as it is written there. *)
Lemma createAndAdd_run octokit u t cs w :
  exists creation adds,
    createAndAdd octokit u t cs w =
      (Ret tt,
       mkWorld (stdin w)
         (trace w ++ [Log (RepositoryDoesNotExist t)]
            ++ creation ++ adds ++ [Log RepositoryCreatedAndAdded])) /\
    calls creation = [ReposCreateForAuthenticatedUser t true] /\
    calls adds = addCalls u t (elements cs) /\
    failuresLogged creation = true /\ failuresLogged adds = true.
Proof.
  unfold createAndAdd.
  erewrite bind_Ret by reflexivity.
  match goal with |- context [bind (createRepository _ _ _) _ ?w0] =>
    destruct (createRepository_step octokit t true w0)
      as [creation [Hcre [Hcc Hlc]]]
  end.
  erewrite bind_Ret by exact Hcre.
  match goal with |- context [bind (forOf _ ?body) _ ?w0] =>
    destruct (forOf_steps body
                (fun collab => ReposAddCollaborator u t collab "push")
                (fun x => addUserToRepository_step octokit u t x)
                (elements cs) w0) as [adds [Hadds [Hca Hla]]]
  end.
  erewrite bind_Ret by exact Hadds.
  exists creation, adds. unfold emit; cbn [trace stdin].
  split; [|split; [|split; [|split]]]; try assumption.
  f_equal. f_equal. rewrite <- !app_assoc. reflexivity.
Qed.

(** The three ways a run goes on once the manifest is accepted. *)
Lemma update_run env octokit path rest u t cs C N :
  Accepted env octokit path u t cs ->
  Existing octokit u t C ->
  mapToLowerCase (elements cs) = Ok N ->
  exists adds removes,
    run env octokit (path :: rest) =
      (Ret tt,
       mkWorld rest
         (afterExists u t ++ [Host (ReposListCollaborators u t) None]
            ++ adds ++ removes
            ++ [Log CollaboratorsUpdated; Log ProgramCompleted])) /\
    calls adds =
      addCalls u t (map VStr (collaboratorsToAdd N (map toLowerCase C))) /\
    calls removes =
      removeCalls u t
        (map VStr (collaboratorsToRemove N (map toLowerCase C) (toLowerCase u))) /\
    failuresLogged adds = true /\ failuresLogged removes = true.
Proof.
  intros Hacc [Hget Hlist] Hnorm.
  rewrite (main_accepted _ _ _ rest _ _ _ Hacc).
  erewrite bind_Ret
    by (rewrite repositoryExists_run; cbn [trace stdin]; rewrite Hget;
        reflexivity).
  cbv beta iota.
  match goal with |- context [bind (updateCollaborators _ _ _ _) _ ?w0] =>
    destruct (updateCollaborators_run octokit u t cs w0 C N)
      as [adds [removes [Hrun Hrest]]]; [exact Hlist | exact Hnorm |]
  end.
  erewrite bind_Ret by exact Hrun.
  exists adds, removes. split; [|exact Hrest].
  unfold emit; cbn [trace stdin]. f_equal. f_equal.
  unfold afterExists. rewrite <- !app_assoc. reflexivity.
Qed.

Lemma create_run env octokit path rest u t cs e :
  Accepted env octokit path u t cs ->
  Absent octokit u t e ->
  exists creation adds,
    run env octokit (path :: rest) =
      (Ret tt,
       mkWorld rest
         (afterLogin u ++ [Host (ReposGet u t) (Some e);
                           Log (RepositoryDoesNotExist t)]
            ++ creation ++ adds
            ++ [Log RepositoryCreatedAndAdded; Log ProgramCompleted])) /\
    calls creation = [ReposCreateForAuthenticatedUser t true] /\
    calls adds = addCalls u t (elements cs) /\
    failuresLogged creation = true /\ failuresLogged adds = true.
Proof.
  intros Hacc [Hget H404]. apply statusIs404_true in H404.
  rewrite (main_accepted _ _ _ rest _ _ _ Hacc).
  erewrite bind_Ret
    by (rewrite repositoryExists_run; cbn [trace stdin]; rewrite Hget, H404;
        reflexivity).
  cbv beta iota.
  match goal with |- context [bind (createAndAdd _ _ _ _) _ ?w0] =>
    destruct (createAndAdd_run octokit u t cs w0)
      as [creation [adds [Hrun Hrest]]]
  end.
  erewrite bind_Ret by exact Hrun.
  exists creation, adds. split; [|exact Hrest].
  unfold emit; cbn [trace stdin]. f_equal. f_equal.
  rewrite <- !app_assoc. reflexivity.
Qed.

Lemma unlistable_run env octokit path rest u t cs e :
  Accepted env octokit path u t cs ->
  Unlistable octokit u t e ->
  run env octokit (path :: rest) =
    (Throw e,
     mkWorld rest
       (afterExists u t ++ [Host (ReposListCollaborators u t) (Some e);
                            LogError (ErrorListingCollaborators e)])).
Proof.
  intros Hacc [Hget Hlist].
  rewrite (main_accepted _ _ _ rest _ _ _ Hacc).
  erewrite bind_Ret
    by (rewrite repositoryExists_run; cbn [trace stdin]; rewrite Hget;
        reflexivity).
  cbv beta iota.
  apply bind_Throw. unfold updateCollaborators.
  erewrite bind_Ret by reflexivity.
  apply bind_Throw.
  rewrite listCollaborators_run. cbn [trace stdin].
  unfold afterExists in Hlist. rewrite <- app_assoc. cbn [app] in *.
  rewrite Hlist. unfold afterExists. rewrite <- !app_assoc. reflexivity.
Qed.














Lemma sample_accepted_unlistable :
  Accepted Samples.env Samples.hostUnlistable "team.json" "Owner1" (VStr "team")
           (VArr (map VStr ["Alice"; "BOB"; "alice"])).
Proof.
  split; [reflexivity|]. split; [reflexivity|].
  split; [exists Samples.manifest; split; reflexivity|].
  split; reflexivity.
Qed.

(* ---------------------------------------------------------------- *)
(** *** The existence check *)

(** C6. [repositoryExists] returns [false] exactly when the host answers
    with an error whose status is 404, returns [true] exactly when the
    lookup succeeds, and throws the error of the host again in every
    other case. *)
Theorem repositoryExists_outcome octokit owner repoName w :
  let answer := repos_get octokit (trace w) owner repoName in
  let outcome := fst (repositoryExists octokit owner repoName w) in
  (outcome = Ret false <->
     exists e, answer = Fail e /\ status e = Some 404%Z) /\
  (outcome = Ret true <-> answer = Ok tt) /\
  (forall e, outcome = Throw e <->
     answer = Fail e /\ status e <> Some 404%Z).
Proof.
  cbv zeta. rewrite repositoryExists_run.
  destruct (repos_get octokit (trace w) owner repoName) as [[]|e0].
  - cbn [fst]. split; [|split].
    + split; [discriminate|]. intros [e [H _]]. discriminate.
    + split; reflexivity.
    + intros e. split; [discriminate|]. intros [H _]. discriminate.
  - destruct (statusIs404 e0) eqn:H404; cbn [fst].
    + apply statusIs404_true in H404. split; [|split].
      * split; [|reflexivity]. intros _. exists e0. now split.
      * split; discriminate.
      * intros e. split; [discriminate|].
        intros [Heq Hne]. injection Heq as <-. contradiction.
    + assert (Hne : status e0 <> Some 404%Z).
      { intros H. apply statusIs404_true in H. congruence. }
      split; [|split].
      * split; [discriminate|]. intros [e [Heq H]].
        injection Heq as <-. contradiction.
      * split; discriminate.
      * intros e. split.
        -- intros H. injection H as <-. now split.
        -- intros [Heq _]. injection Heq as <-. reflexivity.
Qed.

(* ---------------------------------------------------------------- *)
(** *** Malformed manifests *)

(** C3, as stated, fails: a run on a manifest without a team name has
    already asked the host for the login when the manifest is read. *)
Lemma malformed_manifest_run_asks_login :
  ~ (forall env octokit input teamData,
       (forall path, readAndParse env path = Ok teamData) ->
       malformed teamData = true ->
       calls (trace (snd (run env octokit input))) = []).
Proof.
  intros H.
  specialize (H Samples.envNoTeamName Samples.hostExisting ["team.json"]
                Samples.manifestNoTeamName (fun _ => eq_refl) eq_refl).
  vm_compute in H. discriminate H.
Qed.

(** C3, amended. When the parsed manifest is malformed (team name missing
    or empty, or collaborators not an array), the only request of the run
    is the lookup of the login, made before the manifest is read; and when
    the manifest is not [null], the run prints the invalid-format error
    and returns. *)
Theorem malformed_manifest_aborts env octokit path rest u teamData :
  hasToken env = true ->
  users_getAuthenticated octokit [] = Ok u ->
  readAndParse env path = Ok teamData ->
  malformed teamData = true ->
  let r := run env octokit (path :: rest) in
  calls (trace (snd r)) = [UsersGetAuthenticated] /\
  (teamData <> VNull -> teamData <> VUndefined ->
   fst r = Ret tt /\
   trace (snd r) = afterLogin u ++ [LogError InvalidJSONFormat]).
Proof.
  intros Htok Hauth Hread Hbad. cbv zeta.
  rewrite (main_started env octokit path rest u Htok Hauth), Hread.
  unfold malformed in Hbad.
  destruct (destructure teamData) as [[teamName collaborators]|e] eqn:Hd.
  - erewrite bind_Ret by reflexivity. cbv beta iota.
    assert (Hguard : negb (truthy teamName) || negb (isArray collaborators) = true).
    { destruct teamName as [| |b|z|s|l|l]; try reflexivity;
        try (rewrite Hbad; apply orb_true_r).
      destruct s; [reflexivity|]. rewrite Hbad. apply orb_true_r. }
    rewrite Hguard. unfold emit. cbn [fst snd trace stdin].
    split; [reflexivity|]. intros _ _. split; reflexivity.
  - erewrite bind_Throw by reflexivity. cbn [fst snd trace].
    split; [reflexivity|]. intros Hnull Hundef.
    destruct teamData; try discriminate Hd; contradiction.
Qed.

Lemma malformed_manifest_aborts_witness :
  let r := run Samples.envNoTeamName Samples.hostExisting ["team.json"] in
  calls (trace (snd r)) = [UsersGetAuthenticated] /\
  fst r = Ret tt /\
  trace (snd r) = afterLogin "Owner1" ++ [LogError InvalidJSONFormat].
Proof.
  cbv zeta.
  destruct (malformed_manifest_aborts Samples.envNoTeamName Samples.hostExisting
              "team.json" [] "Owner1" Samples.manifestNoTeamName
              eq_refl eq_refl eq_refl eq_refl) as [Hcalls Hout].
  split; [exact Hcalls|].
  apply Hout; discriminate.
Defined.

(* ---------------------------------------------------------------- *)
(** *** Failures of the host *)




(* ---------------------------------------------------------------- *)
(** *** What is sent to the host *)





End ManifestFacts.

(* ------------------------------------------------------------------ *)
(** ** The interactive flow *)

Module InteractiveFacts.
Import Interactive.

Lemma interactive_calls_app (a b : list Event) : calls (a ++ b) = calls a ++ calls b.
Proof.
  induction a as [|ev a IH]; simpl.
  - reflexivity.
  - destruct ev; simpl; now rewrite IH.
Qed.

Lemma prompt_line query line rest t :
  prompt query (mkWorld (line :: rest) t) =
    (Ret line, mkWorld rest (t ++ [Asked query])).
Proof. reflexivity. Qed.

Lemma interactive_add_step octokit owner repoName username :
  Step (addUserToRepository octokit owner repoName username)
       (ReposAddCollaborator owner repoName username "push").
Proof.
  intros w. unfold addUserToRepository, tryCatch, bind, request, emit.
  destruct (repos_addCollaborator octokit (trace w) owner repoName username "push")
    as [[]|e]; cbn [stdin trace]; rewrite <- app_assoc;
    eexists; split; reflexivity.
Qed.

Lemma interactive_remove_step octokit owner repoName username :
  Step (removeUserFromRepository octokit owner repoName username)
       (ReposRemoveCollaborator owner repoName username).
Proof.
  intros w. unfold removeUserFromRepository, tryCatch, bind, request, emit.
  destruct (repos_removeCollaborator octokit (trace w) owner repoName username)
    as [[]|e]; cbn [stdin trace]; rewrite <- app_assoc;
    eexists; split; reflexivity.
Qed.

Lemma interactive_create_step octokit repoName isPrivate :
  Step (createRepository octokit repoName isPrivate)
       (ReposCreateForAuthenticatedUser repoName isPrivate).
Proof.
  intros w. unfold createRepository, tryCatch, bind, request, emit.
  destruct (repos_createForAuthenticatedUser octokit (trace w) repoName isPrivate)
    as [url|e]; cbn [stdin trace]; rewrite <- app_assoc;
    eexists; split; reflexivity.
Qed.

Lemma interactive_delete_step octokit owner repoName :
  Step (deleteRepository octokit owner repoName) (ReposDelete owner repoName).
Proof.
  intros w. unfold deleteRepository, tryCatch, bind, request, emit.
  destruct (repos_delete octokit (trace w) owner repoName)
    as [[]|e]; cbn [stdin trace]; rewrite <- app_assoc;
    eexists; split; reflexivity.
Qed.

(** An entry loop on lines that end with an empty one: one request per
    line before it, in order; the empty line and the lines after it cause
    none, and the lines after it are left unread. *)
Lemma entry_loop query (action : string -> M Event unit) (mk : string -> Call) :
  (forall x, Step (action x) (mk x)) ->
  forall names rest fuel t,
    allNonEmpty names = true ->
    List.length names < fuel ->
    exists evs,
      whileTrue fuel (entryTurn query action)
                (mkWorld (names ++ "" :: rest) t) =
        (Ret tt, mkWorld rest (t ++ evs)) /\
      calls evs = map mk names.
Proof.
  intros Haction. unfold entryTurn.
  induction names as [|n names IH]; intros rest fuel t Hne Hfuel.
  - destruct fuel as [|fuel]; [inversion Hfuel|].
    exists [Asked query]. split; reflexivity.
  - destruct fuel as [|fuel]; [inversion Hfuel|].
    cbn [allNonEmpty forallb] in Hne. apply andb_true_iff in Hne as [Hn Hns].
    destruct n as [|c n]; [discriminate Hn|].
    cbn [whileTrue app].
    destruct (Haction (String c n)
                (mkWorld (names ++ "" :: rest) (t ++ [Asked query])))
      as [e1 [Hrun Hc1]].
    cbn [stdin trace] in Hrun.
    destruct (IH rest fuel ((t ++ [Asked query]) ++ e1) Hns)
      as [e2 [Hloop Hc2]].
    { cbn [List.length] in Hfuel. lia. }
    erewrite bind_Ret.
    2:{ erewrite bind_Ret by apply prompt_line.
        cbn [isEmptyString]. erewrite bind_Ret by exact Hrun. reflexivity. }
    cbv beta iota. rewrite Hloop.
    exists ([Asked query] ++ e1 ++ e2). split.
    + rewrite !app_assoc. reflexivity.
    + rewrite !interactive_calls_app, Hc1, Hc2. reflexivity.
Qed.


(** A run up to the first prompt, when the token is set and the login is
    known. *)
Lemma interactive_started fuel token octokit u actionInput rest :
  hasToken token = true ->
  users_getAuthenticated octokit [] = Ok u ->
  run fuel token octokit (actionInput :: rest) =
    ((let action := toLowerCase actionInput in
      if String.eqb action "create" then
        repoName <- prompt "Enter the name of the new repository: " ;;
        createRepository octokit repoName true ;;;
        addLoop fuel octokit u repoName
      else if String.eqb action "edit" then
        repoName <- prompt "Enter the name of the repository to edit: " ;;
        editActionInput <-
          prompt "What do you want to do? (add/remove collaborator or delete): " ;;
        let editAction := toLowerCase editActionInput in
        if String.eqb editAction "add" then
          addLoop fuel octokit u repoName
        else if String.eqb editAction "remove" then
          removeLoop fuel octokit u repoName
        else if String.eqb editAction "delete" then
          confirm <-
            prompt "Are you sure you want to delete this repository? (yes/no): " ;;
          if String.eqb (toLowerCase confirm) "yes" then
            deleteRepository octokit u repoName
          else
            emit (Log DeletionCanceled)
        else
          emit (Log InvalidAction)
      else
        emit (Log InvalidOption)) ;;;
     emit (Log ProgramCompleted)) (mkWorld rest (afterLogin u)).
Proof.
  intros Htok Hauth. unfold run, main, newGitHubManager, hasToken in *.
  destruct token as [[|c s]|]; try discriminate.
  erewrite bind_Ret by reflexivity.
  erewrite bind_Ret.
  2:{ unfold getAuthenticatedUsername, tryCatch, request. cbn [trace stdin].
      rewrite Hauth. reflexivity. }
  erewrite bind_Ret by reflexivity.
  erewrite bind_Ret by apply prompt_line.
  reflexivity.
Qed.

(** The three entry loops, from the world in which each starts. *)
Lemma addLoop_run fuel octokit u repo names rest t :
  allNonEmpty names = true ->
  List.length names < fuel ->
  exists evs,
    addLoop fuel octokit u repo (mkWorld (names ++ "" :: rest) t) =
      (Ret tt, mkWorld rest (t ++ evs)) /\
    calls evs = addCalls u repo names.
Proof.
  intros Hne Hfuel. unfold addLoop, addCalls.
  exact (entry_loop addQuery (addUserToRepository octokit u repo)
           (fun n => ReposAddCollaborator u repo n "push")
           (interactive_add_step octokit u repo) names rest fuel t
           Hne Hfuel).
Qed.

Lemma removeLoop_run fuel octokit u repo names rest t :
  allNonEmpty names = true ->
  List.length names < fuel ->
  exists evs,
    removeLoop fuel octokit u repo (mkWorld (names ++ "" :: rest) t) =
      (Ret tt, mkWorld rest (t ++ evs)) /\
    calls evs = removeCalls u repo names.
Proof.
  intros Hne Hfuel. unfold removeLoop, removeCalls.
  exact (entry_loop removeQuery (removeUserFromRepository octokit u repo)
           (fun n => ReposRemoveCollaborator u repo n)
           (interactive_remove_step octokit u repo) names rest fuel t
           Hne Hfuel).
Qed.

(** C8. In the create flow and in the add and remove sub-actions of the
    edit flow, when the lines typed at the collaborator prompt are [names]
    (none empty), then an empty line, then [rest], the run makes one
    request to add (or to remove) per line of [names], in order, and none
    for the empty line or for [rest], which it leaves unread. *)
Theorem collaborator_entry fuel token octokit u names rest :
  hasToken token = true ->
  users_getAuthenticated octokit [] = Ok u ->
  allNonEmpty names = true ->
  List.length names < fuel ->
  (forall a repo, toLowerCase a = "create" ->
     let r := run fuel token octokit (a :: repo :: names ++ "" :: rest) in
     fst r = Ret tt /\ stdin (snd r) = rest /\
     calls (trace (snd r)) =
       UsersGetAuthenticated :: ReposCreateForAuthenticatedUser repo true
         :: addCalls u repo names) /\
  (forall a repo e, toLowerCase a = "edit" -> toLowerCase e = "add" ->
     let r := run fuel token octokit (a :: repo :: e :: names ++ "" :: rest) in
     fst r = Ret tt /\ stdin (snd r) = rest /\
     calls (trace (snd r)) = UsersGetAuthenticated :: addCalls u repo names) /\
  (forall a repo e, toLowerCase a = "edit" -> toLowerCase e = "remove" ->
     let r := run fuel token octokit (a :: repo :: e :: names ++ "" :: rest) in
     fst r = Ret tt /\ stdin (snd r) = rest /\
     calls (trace (snd r)) = UsersGetAuthenticated :: removeCalls u repo names).
Proof.
  intros Htok Hauth Hne Hfuel. split; [|split].
  - intros a repo Ha. cbv zeta.
    rewrite (interactive_started fuel token octokit u a _ Htok Hauth). cbv zeta.
    rewrite Ha. change (String.eqb "create" "create") with true. cbv iota.
    destruct (interactive_create_step octokit repo true
                (mkWorld (names ++ "" :: rest)
                   (afterLogin u ++ [Asked "Enter the name of the new repository: "])))
      as [e1 [Hcre Hc1]].
    cbn [stdin trace] in Hcre.
    destruct (addLoop_run fuel octokit u repo names rest
                ((afterLogin u ++ [Asked "Enter the name of the new repository: "])
                   ++ e1) Hne Hfuel)
      as [e2 [Hloop Hc2]].
    erewrite bind_Ret.
    2:{ erewrite bind_Ret by apply prompt_line.
        erewrite bind_Ret by exact Hcre. exact Hloop. }
    unfold emit; cbn [fst snd stdin trace].
    split; [reflexivity|]. split; [reflexivity|].
    rewrite !interactive_calls_app, Hc1, Hc2. cbn. now rewrite ?app_nil_r.
  - intros a repo e Ha He. cbv zeta.
    rewrite (interactive_started fuel token octokit u a _ Htok Hauth). cbv zeta.
    rewrite Ha. change (String.eqb "edit" "create") with false.
    change (String.eqb "edit" "edit") with true. cbv iota.
    destruct (addLoop_run fuel octokit u repo names rest
                ((afterLogin u ++ [Asked "Enter the name of the repository to edit: "])
                   ++ [Asked "What do you want to do? (add/remove collaborator or delete): "])
                Hne Hfuel)
      as [e2 [Hloop Hc2]].
    erewrite bind_Ret.
    2:{ erewrite bind_Ret by apply prompt_line.
        erewrite bind_Ret by apply prompt_line.
        rewrite He. change (String.eqb "add" "add") with true. cbv iota.
        exact Hloop. }
    unfold emit; cbn [fst snd stdin trace].
    split; [reflexivity|]. split; [reflexivity|].
    rewrite !interactive_calls_app, Hc2. cbn. now rewrite ?app_nil_r.
  - intros a repo e Ha He. cbv zeta.
    rewrite (interactive_started fuel token octokit u a _ Htok Hauth). cbv zeta.
    rewrite Ha. change (String.eqb "edit" "create") with false.
    change (String.eqb "edit" "edit") with true. cbv iota.
    destruct (removeLoop_run fuel octokit u repo names rest
                ((afterLogin u ++ [Asked "Enter the name of the repository to edit: "])
                   ++ [Asked "What do you want to do? (add/remove collaborator or delete): "])
                Hne Hfuel)
      as [e2 [Hloop Hc2]].
    erewrite bind_Ret.
    2:{ erewrite bind_Ret by apply prompt_line.
        erewrite bind_Ret by apply prompt_line.
        rewrite He. change (String.eqb "remove" "add") with false.
        change (String.eqb "remove" "remove") with true. cbv iota.
        exact Hloop. }
    unfold emit; cbn [fst snd stdin trace].
    split; [reflexivity|]. split; [reflexivity|].
    rewrite !interactive_calls_app, Hc2. cbn. now rewrite ?app_nil_r.
Qed.

Lemma collaborator_entry_witness :
  let r := run 3 (Some "ghp_token") Samples.console
               ["Create"; "repo"; "alice"; "bob"; ""; "carol"] in
  fst r = Ret tt /\ stdin (snd r) = ["carol"] /\
  calls (trace (snd r)) =
    [UsersGetAuthenticated; ReposCreateForAuthenticatedUser "repo" true;
     ReposAddCollaborator "Owner1" "repo" "alice" "push";
     ReposAddCollaborator "Owner1" "repo" "bob" "push"].
Proof.
  cbv zeta.
  apply (proj1 (collaborator_entry 3 (Some "ghp_token") Samples.console
                  "Owner1" ["alice"; "bob"] ["carol"]
                  eq_refl eq_refl eq_refl (le_n 3))
           "Create" "repo" eq_refl).
Defined.

(** C7. In the delete sub-action of the edit flow, the request to delete
    the repository is made if and only if the answer to the confirmation
    prompt equals [yes] up to letter casing; with any other answer the
    login lookup stays the only request of the run. *)
Theorem delete_confirmation fuel token octokit u a repo e confirm rest :
  hasToken token = true ->
  users_getAuthenticated octokit [] = Ok u ->
  toLowerCase a = "edit" ->
  toLowerCase e = "delete" ->
  let sent :=
    calls (trace (snd (run fuel token octokit
                           (a :: repo :: e :: confirm :: rest)))) in
  (existsb isDeleteCall sent = true <-> caseInsensitiveEq confirm "yes") /\
  (caseInsensitiveEq confirm "yes" ->
     sent = [UsersGetAuthenticated; ReposDelete u repo]) /\
  (~ caseInsensitiveEq confirm "yes" -> sent = [UsersGetAuthenticated]).
Proof.
  intros Htok Hauth Ha He. cbv zeta.
  rewrite (interactive_started fuel token octokit u a _ Htok Hauth). cbv zeta.
  rewrite Ha. change (String.eqb "edit" "create") with false.
  change (String.eqb "edit" "edit") with true. cbv iota.
  unfold caseInsensitiveEq. change (toLowerCase "yes") with "yes".
  set (t0 := ((afterLogin u ++ [Asked "Enter the name of the repository to edit: "])
                ++ [Asked "What do you want to do? (add/remove collaborator or delete): "])
               ++ [Asked "Are you sure you want to delete this repository? (yes/no): "]).
  destruct (String.eqb_spec (toLowerCase confirm) "yes") as [Hyes|Hno].
  - destruct (interactive_delete_step octokit u repo (mkWorld rest t0))
      as [e1 [Hdel Hc1]].
    cbn [stdin trace] in Hdel.
    erewrite bind_Ret.
    2:{ erewrite bind_Ret by apply prompt_line.
        erewrite bind_Ret by apply prompt_line.
        rewrite He. change (String.eqb "delete" "add") with false.
        change (String.eqb "delete" "remove") with false.
        change (String.eqb "delete" "delete") with true. cbv iota.
        erewrite bind_Ret by apply prompt_line.
        rewrite Hyes. change (String.eqb "yes" "yes") with true. cbv iota.
        exact Hdel. }
    unfold emit; cbn [fst snd stdin trace].
    assert (Hsent : calls ((t0 ++ e1) ++ [Log ProgramCompleted]) =
                    [UsersGetAuthenticated; ReposDelete u repo]).
    { rewrite !interactive_calls_app, Hc1. reflexivity. }
    rewrite Hsent. split; [|split].
    + split; [intros _; exact Hyes | intros _; reflexivity].
    + intros _. reflexivity.
    + intros Hneg. contradiction.
  - erewrite bind_Ret.
    2:{ erewrite bind_Ret by apply prompt_line.
        erewrite bind_Ret by apply prompt_line.
        rewrite He. change (String.eqb "delete" "add") with false.
        change (String.eqb "delete" "remove") with false.
        change (String.eqb "delete" "delete") with true. cbv iota.
        erewrite bind_Ret by apply prompt_line.
        apply String.eqb_neq in Hno. rewrite Hno. reflexivity. }
    unfold emit; cbn [fst snd stdin trace]. split; [|split].
    + split; [discriminate | intros Hyes; contradiction].
    + intros Hyes. contradiction.
    + intros _. reflexivity.
Qed.

Lemma delete_confirmation_witness :
  calls (trace (snd (run 0 (Some "ghp_token") Samples.console
                         ["Edit"; "repo"; "DELETE"; "YeS"])))
    = [UsersGetAuthenticated; ReposDelete "Owner1" "repo"] /\
  calls (trace (snd (run 0 (Some "ghp_token") Samples.console
                         ["Edit"; "repo"; "DELETE"; "y"])))
    = [UsersGetAuthenticated].
Proof.
  split.
  - apply (proj1 (proj2 (delete_confirmation 0 (Some "ghp_token")
                           Samples.console "Owner1" "Edit" "repo" "DELETE"
                           "YeS" [] eq_refl eq_refl eq_refl eq_refl))).
    reflexivity.
  - apply (proj2 (proj2 (delete_confirmation 0 (Some "ghp_token")
                           Samples.console "Owner1" "Edit" "repo" "DELETE"
                           "y" [] eq_refl eq_refl eq_refl eq_refl))).
    discriminate.
Defined.

End InteractiveFacts.

(* ------------------------------------------------------------------ *)
(** ** The reconciler: what applying its result gives *)

Module ReconcileFacts.


Lemma map_toLowerCase_fixed (l : list string) :
  (forall x, In x l -> toLowerCase x = x) -> map toLowerCase l = l.
Proof.
  induction l as [|a l IH]; intros H; simpl.
  - reflexivity.
  - rewrite (H a (or_introl eq_refl)), IH; [reflexivity|].
    intros x Hx. apply H. now right.
Qed.

(** The collaborators once the requests of [reconcile D C O] are applied:
    the lowercased current ones that are not removed, then the added ones. *)
Lemma applied_In (D C : list string) (O x : string) :
  In x (filter (fun c => negb (includes (snd (reconcile D C O)) c))
               (map toLowerCase C) ++ fst (reconcile D C O)) <->
  In x (map toLowerCase D) \/
  (x = toLowerCase O /\ In x (map toLowerCase C)).
Proof.
  rewrite in_app_iff, filter_In, negb_true_iff, includes_false.
  destruct (reconcile_In D C O x) as [Hadd Hrem]. rewrite Hadd, Hrem.
  destruct (in_dec string_dec x (map toLowerCase D)) as [HD|HD];
    destruct (in_dec string_dec x (map toLowerCase C)) as [HC|HC];
    destruct (string_dec x (toLowerCase O)) as [HO|HO]; tauto.
Qed.

Lemma applied_fixed (D C : list string) (O x : string) :
  In x (filter (fun c => negb (includes (snd (reconcile D C O)) c))
               (map toLowerCase C) ++ fst (reconcile D C O)) ->
  toLowerCase x = x.
Proof.
  intros H. apply applied_In in H as [H|[_ H]];
    exact (lowercase_member_fixed _ _ H).
Qed.

(** The result of reconciliation reaches the desired state: once the
    members of [toRemove] are taken out of the lowercased current list and
    the members of [toAdd] are put in, the identities present are exactly
    the lowercased desired ones, and the owner when the owner was a
    collaborator. *)
Theorem reconcile_reaches_desired (D C : list string) (O x : string) :
  In x (filter (fun c => negb (includes (snd (reconcile D C O)) c))
               (map toLowerCase C) ++ fst (reconcile D C O)) <->
  In x (map toLowerCase D) \/
  (x = toLowerCase O /\ In x (map toLowerCase C)).
Proof.
  exact (applied_In D C O x).
Qed.

(** Reconciling again after the result has been applied asks for nothing:
    no identity to add and none to remove. *)
Theorem reconcile_converges (D C : list string) (O : string) :
  reconcile D
    (filter (fun c => negb (includes (snd (reconcile D C O)) c))
            (map toLowerCase C) ++ fst (reconcile D C O))
    O = ([], []).
Proof.
  set (C' := filter (fun c => negb (includes (snd (reconcile D C O)) c))
                    (map toLowerCase C) ++ fst (reconcile D C O)).
  assert (Hfix : map toLowerCase C' = C').
  { apply map_toLowerCase_fixed. intros x Hx. exact (applied_fixed D C O x Hx). }
  unfold reconcile at 1. rewrite Hfix. f_equal.
  - apply filter_nothing. intros x Hx.
    apply negb_false_iff, includes_true. apply applied_In. now left.
  - apply filter_nothing. intros x Hx. apply applied_In in Hx.
    destruct Hx as [Hx|[Hx _]].
    + apply includes_true in Hx. now rewrite Hx.
    + subst x. rewrite String.eqb_refl. apply andb_false_r.
Qed.


End ReconcileFacts.

(* ------------------------------------------------------------------ *)
(** ** The manifest flow: the paths that end early *)

Module ManifestEdges.
Import Manifest ManifestFacts.

(** The update branch when the lowercasing of the manifest's array throws. *)
Lemma lowercasing_failure_run env octokit path rest u t cs C e :
  Accepted env octokit path u t cs ->
  Existing octokit u t C ->
  mapToLowerCase (elements cs) = Fail e ->
  run env octokit (path :: rest) =
    (Throw e,
     mkWorld rest (afterExists u t ++ [Host (ReposListCollaborators u t) None])).
Proof.
  intros Hacc [Hget Hlist] Hnorm.
  rewrite (main_accepted _ _ _ rest _ _ _ Hacc).
  erewrite bind_Ret
    by (rewrite repositoryExists_run; cbn [trace stdin]; rewrite Hget;
        reflexivity).
  cbv beta iota. apply bind_Throw. unfold updateCollaborators.
  erewrite bind_Ret by reflexivity.
  erewrite bind_Ret
    by (rewrite listCollaborators_run; cbn [trace stdin];
        unfold afterExists in Hlist; rewrite <- app_assoc; cbn [app] in *;
        rewrite Hlist; reflexivity).
  rewrite Hnorm. apply bind_Throw. cbn [liftResult throw].
  unfold afterExists. rewrite <- !app_assoc. reflexivity.
Qed.

(** The existence check when the host fails with another status than 404. *)
Lemma broken_check_run env octokit path rest u t cs e :
  Accepted env octokit path u t cs ->
  repos_get octokit (afterLogin u) u t = Fail e ->
  statusIs404 e = false ->
  run env octokit (path :: rest) =
    (Throw e,
     mkWorld rest
       (afterLogin u ++ [Host (ReposGet u t) (Some e);
                         LogError (ErrorCheckingExistence e)])).
Proof.
  intros Hacc Hget H404.
  rewrite (main_accepted _ _ _ rest _ _ _ Hacc).
  apply bind_Throw. rewrite repositoryExists_run. cbn [trace stdin].
  now rewrite Hget, H404.
Qed.


(** Whatever the host answers, an accepted run makes the existence check
    right after the prompt. *)
Lemma accepted_prefix env octokit path rest u t cs :
  Accepted env octokit path u t cs ->
  exists answered evs,
    trace (snd (run env octokit (path :: rest))) =
      afterLogin u ++ Host (ReposGet u t) answered :: evs.
Proof.
  intros Hacc.
  destruct (repos_get octokit (afterLogin u) u t) as [[]|e] eqn:Hget.
  - destruct (repos_listCollaborators octokit (afterExists u t) u t)
      as [C|e] eqn:Hlist.
    + destruct (mapToLowerCase (elements cs)) as [N|e] eqn:Hnorm.
      * destruct (update_run env octokit path rest u t cs C N Hacc
                    (conj Hget Hlist) Hnorm) as (adds & removes & Hrun & _).
        rewrite Hrun. cbn [snd trace]. unfold afterExists.
        rewrite <- app_assoc. cbn [app]. eexists. eexists. reflexivity.
      * rewrite (lowercasing_failure_run env octokit path rest u t cs C e Hacc
                   (conj Hget Hlist) Hnorm).
        cbn [snd trace]. unfold afterExists.
        rewrite <- app_assoc. cbn [app]. eexists. eexists. reflexivity.
    + rewrite (unlistable_run env octokit path rest u t cs e Hacc
                 (conj Hget Hlist)).
      cbn [snd trace]. unfold afterExists.
      rewrite <- app_assoc. cbn [app]. eexists. eexists. reflexivity.
  - destruct (statusIs404 e) eqn:H404.
    + destruct (create_run env octokit path rest u t cs e Hacc
                  (conj Hget (proj1 (statusIs404_true e) H404)))
        as (creation & adds & Hrun & _).
      rewrite Hrun. cbn [snd trace app]. eexists. eexists. reflexivity.
    + rewrite (broken_check_run env octokit path rest u t cs e Hacc Hget H404).
      cbn [snd trace app]. eexists. eexists. reflexivity.
Qed.

(* ---------------------------------------------------------------- *)
(** *** Before the manifest is read *)

(** Without a token the run throws the constructor's error at once: no
    request, no prompt, no line printed.  With a token, when the host
    rejects the login lookup, the error is printed and thrown again: the
    lookup is the only request and nothing is read from standard input. *)
Theorem startup_failures env octokit input :
  (hasToken env = false ->
     run env octokit input = (Throw tokenMissing, mkWorld input [])) /\
  (forall e, hasToken env = true ->
     users_getAuthenticated octokit [] = Fail e ->
     run env octokit input =
       (Throw e,
        mkWorld input [Host UsersGetAuthenticated (Some e);
                       LogError (ErrorFetchingUsername e)])).
Proof.
  unfold run, main, newGitHubManager, hasToken. split.
  - intros Htok. destruct (GITHUB_TOKEN env) as [[|c s]|];
      try discriminate; reflexivity.
  - intros e Htok Hauth. destruct (GITHUB_TOKEN env) as [[|c s]|];
      try discriminate.
    erewrite bind_Ret by reflexivity. apply bind_Throw.
    unfold getAuthenticatedUsername, tryCatch, request. cbn [trace stdin].
    rewrite Hauth. reflexivity.
Qed.

Lemma startup_failures_witness :
  run Samples.envNoToken Samples.hostExisting ["team.json"]
    = (Throw tokenMissing, mkWorld ["team.json"] []) /\
  run Samples.env Samples.hostNoLogin ["team.json"]
    = (Throw Samples.unauthorized,
       mkWorld ["team.json"]
         [Host UsersGetAuthenticated (Some Samples.unauthorized);
          LogError (ErrorFetchingUsername Samples.unauthorized)]).
Proof.
  split.
  - apply (proj1 (startup_failures Samples.envNoToken Samples.hostExisting
                    ["team.json"])).
    reflexivity.
  - apply (proj2 (startup_failures Samples.env Samples.hostNoLogin
                    ["team.json"]) Samples.unauthorized); reflexivity.
Defined.

(** When the file cannot be read or parsed, the run prints that error and
    returns: the login lookup stays its only request and the completion
    message is not printed. *)
Theorem unreadable_manifest env octokit path rest u e :
  hasToken env = true ->
  users_getAuthenticated octokit [] = Ok u ->
  readAndParse env path = Fail e ->
  let r := run env octokit (path :: rest) in
  fst r = Ret tt /\
  trace (snd r) = afterLogin u ++ [LogError (ErrorReadingJSON e)] /\
  calls (trace (snd r)) = [UsersGetAuthenticated] /\
  completed (trace (snd r)) = false.
Proof.
  intros Htok Hauth Hread. cbv zeta.
  rewrite (main_started env octokit path rest u Htok Hauth), Hread.
  cbn [fst snd trace]. repeat split; reflexivity.
Qed.

Lemma unreadable_manifest_witness :
  let r := run Samples.envUnreadable Samples.hostExisting ["team.json"] in
  fst r = Ret tt /\
  trace (snd r) =
    afterLogin "Owner1" ++ [LogError (ErrorReadingJSON Samples.noSuchFile)] /\
  calls (trace (snd r)) = [UsersGetAuthenticated] /\
  completed (trace (snd r)) = false.
Proof.
  exact (unreadable_manifest Samples.envUnreadable Samples.hostExisting
           "team.json" [] "Owner1" Samples.noSuchFile eq_refl eq_refl eq_refl).
Defined.

(* ---------------------------------------------------------------- *)
(** *** The check of the manifest *)

(** The check of line 187 decides whether the host is asked about the
    repository.  For a manifest that is not [null]: when the team name is
    truthy and the collaborators are an array, the existence check for that
    name follows the prompt, whatever the host answers later; when the team
    name is falsy (also [null], [false] or [0]) or the collaborators are not
    an array, the run prints the invalid-format error and returns. *)
Theorem manifest_check env octokit path rest u teamData t cs :
  hasToken env = true ->
  users_getAuthenticated octokit [] = Ok u ->
  readAndParse env path = Ok teamData ->
  destructure teamData = Ok (t, cs) ->
  let r := run env octokit (path :: rest) in
  (truthy t = true /\ isArray cs = true ->
     exists answered evs,
       trace (snd r) = afterLogin u ++ Host (ReposGet u t) answered :: evs) /\
  (truthy t = false \/ isArray cs = false ->
     fst r = Ret tt /\
     trace (snd r) = afterLogin u ++ [LogError InvalidJSONFormat]).
Proof.
  intros Htok Hauth Hread Hfields. cbv zeta. split.
  - intros [Ht Hcs]. apply (accepted_prefix env octokit path rest u t cs).
    split; [exact Htok|]. split; [exact Hauth|].
    split; [exists teamData; now split|]. now split.
  - intros Hbad.
    rewrite (main_started env octokit path rest u Htok Hauth), Hread.
    erewrite bind_Ret by (rewrite Hfields; reflexivity). cbv beta iota.
    assert (Hguard : negb (truthy t) || negb (isArray cs) = true).
    { destruct Hbad as [H|H]; rewrite H; [reflexivity | apply orb_true_r]. }
    rewrite Hguard. split; reflexivity.
Qed.

Lemma manifest_check_witness :
  (exists answered evs,
     trace (snd (run Samples.env Samples.hostBrokenCheck ["team.json"])) =
       afterLogin "Owner1" ++ Host (ReposGet "Owner1" (VStr "team")) answered :: evs) /\
  fst (run Samples.envZeroName Samples.hostExisting ["team.json"]) = Ret tt /\
  trace (snd (run Samples.envZeroName Samples.hostExisting ["team.json"])) =
    afterLogin "Owner1" ++ [LogError InvalidJSONFormat].
Proof.
  split.
  - apply (proj1 (manifest_check Samples.env Samples.hostBrokenCheck "team.json"
                    [] "Owner1" Samples.manifest (VStr "team")
                    (VArr (map VStr ["Alice"; "BOB"; "alice"]))
                    eq_refl eq_refl eq_refl eq_refl)).
    split; reflexivity.
  - apply (proj2 (manifest_check Samples.envZeroName Samples.hostExisting
                    "team.json" [] "Owner1" Samples.manifestZeroName (VNum 0)
                    (VArr [VStr "alice"]) eq_refl eq_refl eq_refl eq_refl)).
    left. reflexivity.
Defined.

(** When the file parses to [null], the destructuring of line 185 throws
    before the check of line 187: the run ends with that error right after
    the prompt, without the invalid-format line and with the login lookup as
    its only request. *)
Theorem null_manifest env octokit path rest u :
  hasToken env = true ->
  users_getAuthenticated octokit [] = Ok u ->
  readAndParse env path = Ok VNull ->
  let r := run env octokit (path :: rest) in
  (exists e, fst r = Throw e /\ status e = None) /\
  trace (snd r) = afterLogin u /\
  stdin (snd r) = rest.
Proof.
  intros Htok Hauth Hread. cbv zeta.
  rewrite (main_started env octokit path rest u Htok Hauth), Hread.
  erewrite bind_Throw by reflexivity. cbn [fst snd trace stdin].
  split; [|split; reflexivity].
  eexists. split; reflexivity.
Qed.

Lemma null_manifest_witness :
  let r := run Samples.envNull Samples.hostExisting ["team.json"; "more"] in
  (exists e, fst r = Throw e /\ status e = None) /\
  trace (snd r) = afterLogin "Owner1" /\
  stdin (snd r) = ["more"].
Proof.
  exact (null_manifest Samples.envNull Samples.hostExisting "team.json"
           ["more"] "Owner1" eq_refl eq_refl eq_refl).
Defined.

(* ---------------------------------------------------------------- *)
(** *** After the manifest is accepted *)

(** When the existence check fails with a status other than 404 (or with
    no status), [repositoryExists] prints the error and throws it again and
    [main] does not catch it: the run ends there, after two requests, with
    nothing created, listed, added or removed. *)
Theorem existence_check_failure env octokit path rest u t cs e :
  Accepted env octokit path u t cs ->
  repos_get octokit (afterLogin u) u t = Fail e ->
  status e <> Some 404%Z ->
  let r := run env octokit (path :: rest) in
  fst r = Throw e /\
  trace (snd r) =
    afterLogin u ++ [Host (ReposGet u t) (Some e);
                     LogError (ErrorCheckingExistence e)] /\
  calls (trace (snd r)) = [UsersGetAuthenticated; ReposGet u t].
Proof.
  intros Hacc Hget Hne. cbv zeta.
  assert (H404 : statusIs404 e = false).
  { destruct (statusIs404 e) eqn:H; [|reflexivity].
    apply statusIs404_true in H. contradiction. }
  rewrite (broken_check_run env octokit path rest u t cs e Hacc Hget H404).
  cbn [fst snd trace]. repeat split; reflexivity.
Qed.

Lemma existence_check_failure_witness :
  let r := run Samples.env Samples.hostBrokenCheck ["team.json"] in
  fst r = Throw Samples.serverError /\
  trace (snd r) =
    afterLogin "Owner1" ++
      [Host (ReposGet "Owner1" (VStr "team")) (Some Samples.serverError);
       LogError (ErrorCheckingExistence Samples.serverError)] /\
  calls (trace (snd r)) =
    [UsersGetAuthenticated; ReposGet "Owner1" (VStr "team")].
Proof.
  apply (existence_check_failure Samples.env Samples.hostBrokenCheck "team.json"
           [] "Owner1" (VStr "team") (VArr (map VStr ["Alice"; "BOB"; "alice"]))
           Samples.serverError).
  - split; [reflexivity|]. split; [reflexivity|].
    split; [exists Samples.manifest; split; reflexivity|].
    split; reflexivity.
  - reflexivity.
  - discriminate.
Defined.







End ManifestEdges.

(* ------------------------------------------------------------------ *)
(** ** The interactive flow: the paths that end early, and the loops *)

Module InteractiveEdges.
Import Interactive InteractiveFacts.

Lemma bind_Pending {E A B} (m : M E A) (k : A -> M E B) w w' :
  m w = (Pending, w') -> bind m k w = (Pending, w').
Proof. intros H. unfold bind. now rewrite H. Qed.

Lemma prompt_unanswered query t :
  prompt query (mkWorld [] t) = (Pending, mkWorld [] (t ++ [Asked query])).
Proof. reflexivity. Qed.

(** An entry loop on any lines: its result is the same for every bound
    above the number of lines, and it is never the exhaustion of the
    bound. *)
Lemma entry_loop_bounded query (action : string -> M Event unit)
    (mk : string -> Call) :
  (forall x, Step (action x) (mk x)) ->
  forall lines t, exists res,
    fst res <> OutOfFuel /\
    forall fuel, List.length lines < fuel ->
      whileTrue fuel (entryTurn query action) (mkWorld lines t) = res.
Proof.
  intros Haction. induction lines as [|l lines IH]; intros t.
  - exists (Pending, mkWorld [] (t ++ [Asked query])).
    split; [discriminate|]. intros [|fuel] Hf; [inversion Hf|]. reflexivity.
  - destruct l as [|c s].
    + exists (Ret tt, mkWorld lines (t ++ [Asked query])).
      split; [discriminate|]. intros [|fuel] Hf; [inversion Hf|]. reflexivity.
    + destruct (Haction (String c s) (mkWorld lines (t ++ [Asked query])))
        as [e1 [Hrun _]].
      cbn [stdin trace] in Hrun.
      destruct (IH ((t ++ [Asked query]) ++ e1)) as [res [Hres Hloop]].
      exists res. split; [exact Hres|].
      intros [|fuel] Hf; [inversion Hf|].
      cbn [whileTrue]. erewrite bind_Ret.
      2:{ unfold entryTurn. erewrite bind_Ret by apply prompt_line.
          cbn [isEmptyString]. erewrite bind_Ret by exact Hrun. reflexivity. }
      cbv beta iota. apply Hloop. cbn [List.length] in Hf. lia.
Qed.

Lemma addLoop_bounded octokit u repo lines t :
  exists res,
    fst res <> OutOfFuel /\
    forall fuel, List.length lines < fuel ->
      addLoop fuel octokit u repo (mkWorld lines t) = res.
Proof.
  exact (entry_loop_bounded addQuery (addUserToRepository octokit u repo)
           (fun n => ReposAddCollaborator u repo n "push")
           (interactive_add_step octokit u repo) lines t).
Qed.

Lemma removeLoop_bounded octokit u repo lines t :
  exists res,
    fst res <> OutOfFuel /\
    forall fuel, List.length lines < fuel ->
      removeLoop fuel octokit u repo (mkWorld lines t) = res.
Proof.
  exact (entry_loop_bounded removeQuery (removeUserFromRepository octokit u repo)
           (fun n => ReposRemoveCollaborator u repo n)
           (interactive_remove_step octokit u repo) lines t).
Qed.

(** Ending a computation with the completion message keeps a result that
    is not the exhaustion of the bound that way. *)
Lemma completion_bounded (res : Outcome unit * World Event) :
  fst res <> OutOfFuel ->
  fst (bind (fun _ => res) (fun _ => emit (Log ProgramCompleted))
            (mkWorld [] [])) <> OutOfFuel.
Proof.
  destruct res as [[[]|e| |] w]; unfold bind; cbn; intros H;
    try discriminate; contradiction.
Qed.

Lemma completion_of {A} (m : M Event A) (k : A -> M Event unit) w res :
  m w = res -> bind m k w = bind (fun _ => res) k (mkWorld [] []).
Proof. intros <-. reflexivity. Qed.

(** A run on any input: its result is the same for every bound above the
    number of lines of the input, and it is never the exhaustion of the
    bound. *)
Lemma run_bounded token octokit input :
  exists res,
    fst res <> OutOfFuel /\
    forall fuel, List.length input < fuel ->
      run fuel token octokit input = res.
Proof.
  destruct (hasToken token) eqn:Htok.
  2:{ exists (Throw tokenMissing, mkWorld input []).
      split; [discriminate|]. intros fuel _.
      unfold run, main, newGitHubManager. unfold hasToken in Htok.
      destruct token as [[|c s]|]; try discriminate; reflexivity. }
  destruct (users_getAuthenticated octokit []) as [u|e] eqn:Hauth.
  2:{ exists (Throw e, mkWorld input [Host UsersGetAuthenticated (Some e);
                                      LogError (ErrorFetchingUsername e)]).
      split; [discriminate|]. intros fuel _.
      unfold run, main, newGitHubManager. unfold hasToken in Htok.
      destruct token as [[|c s]|]; try discriminate.
      erewrite bind_Ret by reflexivity. apply bind_Throw.
      unfold getAuthenticatedUsername, tryCatch, request. cbn [trace stdin].
      rewrite Hauth. reflexivity. }
  destruct input as [|a rest].
  { exists (Pending, mkWorld [] (afterLogin u)).
    split; [discriminate|]. intros fuel _.
    unfold run, main, newGitHubManager. unfold hasToken in Htok.
    destruct token as [[|c s]|]; try discriminate.
    erewrite bind_Ret by reflexivity.
    erewrite bind_Ret.
    2:{ unfold getAuthenticatedUsername, tryCatch, request. cbn [trace stdin].
        rewrite Hauth. reflexivity. }
    erewrite bind_Ret by reflexivity.
    apply bind_Pending. reflexivity. }
  pose (t1 := afterLogin u ++ [Asked "Enter the name of the new repository: "]).
  pose (t2 := (afterLogin u ++ [Asked "Enter the name of the repository to edit: "])
                ++ [Asked "What do you want to do? (add/remove collaborator or delete): "]).
  pose (t3 := t2 ++ [Asked "Are you sure you want to delete this repository? (yes/no): "]).
  destruct (String.eqb (toLowerCase a) "create") eqn:Hcreate.
  - destruct rest as [|repo r2].
    + eexists. split.
      2:{ intros fuel _.
          rewrite (interactive_started fuel token octokit u a _ Htok Hauth).
          cbv zeta. rewrite Hcreate. apply completion_of.
          apply bind_Pending. apply prompt_unanswered. }
      apply completion_bounded. discriminate.
    + destruct (interactive_create_step octokit repo true (mkWorld r2 t1))
        as [e1 [Hcre _]].
      cbn [stdin trace] in Hcre.
      destruct (addLoop_bounded octokit u repo r2 (t1 ++ e1))
        as [res [Hres Hloop]].
      eexists. split.
      2:{ intros fuel Hf.
          rewrite (interactive_started fuel token octokit u a _ Htok Hauth).
          cbv zeta. rewrite Hcreate. apply completion_of.
          erewrite bind_Ret by apply prompt_line.
          erewrite bind_Ret by exact Hcre.
          apply Hloop. cbn [List.length] in Hf. lia. }
      apply completion_bounded. exact Hres.
  - destruct (String.eqb (toLowerCase a) "edit") eqn:Hedit.
    2:{ eexists. split.
        2:{ intros fuel _.
            rewrite (interactive_started fuel token octokit u a _ Htok Hauth).
            cbv zeta. rewrite Hcreate, Hedit. apply completion_of.
            reflexivity. }
        apply completion_bounded. discriminate. }
    destruct rest as [|repo [|e r3]].
    + eexists. split.
      2:{ intros fuel _.
          rewrite (interactive_started fuel token octokit u a _ Htok Hauth).
          cbv zeta. rewrite Hcreate, Hedit. apply completion_of.
          apply bind_Pending. apply prompt_unanswered. }
      apply completion_bounded. discriminate.
    + eexists. split.
      2:{ intros fuel _.
          rewrite (interactive_started fuel token octokit u a _ Htok Hauth).
          cbv zeta. rewrite Hcreate, Hedit. apply completion_of.
          erewrite bind_Ret by apply prompt_line.
          apply bind_Pending. apply prompt_unanswered. }
      apply completion_bounded. discriminate.
    + destruct (String.eqb (toLowerCase e) "add") eqn:Hadd.
      { destruct (addLoop_bounded octokit u repo r3 t2) as [res [Hres Hloop]].
        eexists. split.
        2:{ intros fuel Hf.
            rewrite (interactive_started fuel token octokit u a _ Htok Hauth).
            cbv zeta. rewrite Hcreate, Hedit. apply completion_of.
            erewrite bind_Ret by apply prompt_line.
            erewrite bind_Ret by apply prompt_line.
            rewrite Hadd. apply Hloop. cbn [List.length] in Hf. lia. }
        apply completion_bounded. exact Hres. }
      destruct (String.eqb (toLowerCase e) "remove") eqn:Hremove.
      { destruct (removeLoop_bounded octokit u repo r3 t2) as [res [Hres Hloop]].
        eexists. split.
        2:{ intros fuel Hf.
            rewrite (interactive_started fuel token octokit u a _ Htok Hauth).
            cbv zeta. rewrite Hcreate, Hedit. apply completion_of.
            erewrite bind_Ret by apply prompt_line.
            erewrite bind_Ret by apply prompt_line.
            rewrite Hadd, Hremove. apply Hloop. cbn [List.length] in Hf. lia. }
        apply completion_bounded. exact Hres. }
      destruct (String.eqb (toLowerCase e) "delete") eqn:Hdelete.
      2:{ eexists. split.
          2:{ intros fuel _.
              rewrite (interactive_started fuel token octokit u a _ Htok Hauth).
              cbv zeta. rewrite Hcreate, Hedit. apply completion_of.
              erewrite bind_Ret by apply prompt_line.
              erewrite bind_Ret by apply prompt_line.
              rewrite Hadd, Hremove, Hdelete. reflexivity. }
          apply completion_bounded. discriminate. }
      destruct r3 as [|confirm r4].
      { eexists. split.
        2:{ intros fuel _.
            rewrite (interactive_started fuel token octokit u a _ Htok Hauth).
            cbv zeta. rewrite Hcreate, Hedit. apply completion_of.
            erewrite bind_Ret by apply prompt_line.
            erewrite bind_Ret by apply prompt_line.
            rewrite Hadd, Hremove, Hdelete.
            apply bind_Pending. apply prompt_unanswered. }
        apply completion_bounded. discriminate. }
      destruct (String.eqb (toLowerCase confirm) "yes") eqn:Hyes.
      * destruct (interactive_delete_step octokit u repo (mkWorld r4 t3))
          as [e1 [Hdel _]].
        cbn [stdin trace] in Hdel.
        eexists. split.
        2:{ intros fuel _.
            rewrite (interactive_started fuel token octokit u a _ Htok Hauth).
            cbv zeta. rewrite Hcreate, Hedit. apply completion_of.
            erewrite bind_Ret by apply prompt_line.
            erewrite bind_Ret by apply prompt_line.
            rewrite Hadd, Hremove, Hdelete.
            erewrite bind_Ret by apply prompt_line.
            rewrite Hyes. exact Hdel. }
        apply completion_bounded. discriminate.
      * eexists. split.
        2:{ intros fuel _.
            rewrite (interactive_started fuel token octokit u a _ Htok Hauth).
            cbv zeta. rewrite Hcreate, Hedit. apply completion_of.
            erewrite bind_Ret by apply prompt_line.
            erewrite bind_Ret by apply prompt_line.
            rewrite Hadd, Hremove, Hdelete.
            erewrite bind_Ret by apply prompt_line.
            rewrite Hyes. reflexivity. }
        apply completion_bounded. discriminate.
Qed.

(* ---------------------------------------------------------------- *)
(** *** The loops end *)

(** On every finite input the interactive program ends without exhausting
    the bound on its loops, and with the same result and the same trace for
    any two bounds above the number of lines of the input: each turn of a
    loop reads a line, so a loop ends on the first empty line or stays
    pending on the prompt that follows the last line. *)
Theorem loop_bound_is_irrelevant token octokit input fuel1 fuel2 :
  List.length input < fuel1 ->
  List.length input < fuel2 ->
  run fuel1 token octokit input = run fuel2 token octokit input /\
  fst (run fuel1 token octokit input) <> OutOfFuel.
Proof.
  intros H1 H2.
  destruct (run_bounded token octokit input) as [res [Hres Hrun]].
  rewrite (Hrun fuel1 H1), (Hrun fuel2 H2). split; [reflexivity | exact Hres].
Qed.

Lemma loop_bound_is_irrelevant_witness :
  run 4 (Some "ghp_token") Samples.consoleRefusing ["create"; "repo"; "alice"]
    = run 9 (Some "ghp_token") Samples.consoleRefusing ["create"; "repo"; "alice"] /\
  fst (run 4 (Some "ghp_token") Samples.consoleRefusing
           ["create"; "repo"; "alice"]) <> OutOfFuel.
Proof.
  apply (loop_bound_is_irrelevant (Some "ghp_token") Samples.consoleRefusing
           ["create"; "repo"; "alice"] 4 9); cbn [List.length]; lia.
Defined.



(* ---------------------------------------------------------------- *)
(** *** Before and at the menus *)

(** Without a token the run throws the constructor's error at once: no
    request, no prompt.  With a token, when the host rejects the login
    lookup, the error is printed and thrown again: the lookup is the only
    request and the menu is never shown. *)
Theorem interactive_startup_failures fuel token octokit input :
  (hasToken token = false ->
     run fuel token octokit input = (Throw tokenMissing, mkWorld input [])) /\
  (forall e, hasToken token = true ->
     users_getAuthenticated octokit [] = Fail e ->
     run fuel token octokit input =
       (Throw e,
        mkWorld input [Host UsersGetAuthenticated (Some e);
                       LogError (ErrorFetchingUsername e)])).
Proof.
  unfold run, main, newGitHubManager, hasToken. split.
  - intros Htok. destruct token as [[|c s]|]; try discriminate; reflexivity.
  - intros e Htok Hauth. destruct token as [[|c s]|]; try discriminate.
    erewrite bind_Ret by reflexivity. apply bind_Throw.
    unfold getAuthenticatedUsername, tryCatch, request. cbn [trace stdin].
    rewrite Hauth. reflexivity.
Qed.

Lemma interactive_startup_failures_witness :
  run 5 (Some "") Samples.console ["create"; "repo"; ""]
    = (Throw tokenMissing, mkWorld ["create"; "repo"; ""] []) /\
  run 5 (Some "ghp_token") Samples.consoleNoLogin ["create"; "repo"; ""]
    = (Throw Samples.unauthorized,
       mkWorld ["create"; "repo"; ""]
         [Host UsersGetAuthenticated (Some Samples.unauthorized);
          LogError (ErrorFetchingUsername Samples.unauthorized)]).
Proof.
  split.
  - apply (proj1 (interactive_startup_failures 5 (Some "") Samples.console
                    ["create"; "repo"; ""])).
    reflexivity.
  - apply (proj2 (interactive_startup_failures 5 (Some "ghp_token")
                    Samples.consoleNoLogin ["create"; "repo"; ""])
             Samples.unauthorized); reflexivity.
Defined.

(** An answer to the first menu that is neither [create] nor [edit], up to
    letter casing, makes the run print the invalid-option line and complete:
    the repository name is not asked, the following lines stay unread and
    the login lookup is the only request. *)
Theorem invalid_option fuel token octokit u a rest :
  hasToken token = true ->
  users_getAuthenticated octokit [] = Ok u ->
  ~ caseInsensitiveEq a "create" ->
  ~ caseInsensitiveEq a "edit" ->
  run fuel token octokit (a :: rest) =
    (Ret tt,
     mkWorld rest (afterLogin u ++ [Log InvalidOption; Log ProgramCompleted])).
Proof.
  intros Htok Hauth Hc He. unfold caseInsensitiveEq in Hc, He.
  change (toLowerCase "create") with "create" in Hc.
  change (toLowerCase "edit") with "edit" in He.
  apply String.eqb_neq in Hc, He.
  rewrite (interactive_started fuel token octokit u a _ Htok Hauth). cbv zeta.
  rewrite Hc, He. reflexivity.
Qed.

Lemma invalid_option_witness :
  run 0 (Some "ghp_token") Samples.console ["delete"; "repo"; "yes"] =
    (Ret tt,
     mkWorld ["repo"; "yes"]
       (afterLogin "Owner1" ++ [Log InvalidOption; Log ProgramCompleted])).
Proof.
  apply (invalid_option 0 (Some "ghp_token") Samples.console "Owner1" "delete"
           ["repo"; "yes"] eq_refl eq_refl); discriminate.
Defined.

(** In the edit flow, an answer to the second menu that is none of [add],
    [remove] and [delete], up to letter casing, makes the run print the
    invalid-action line and complete: the login lookup is the only request
    and the lines that follow stay unread. *)
Theorem invalid_edit_action fuel token octokit u a repo e rest :
  hasToken token = true ->
  users_getAuthenticated octokit [] = Ok u ->
  caseInsensitiveEq a "edit" ->
  ~ caseInsensitiveEq e "add" ->
  ~ caseInsensitiveEq e "remove" ->
  ~ caseInsensitiveEq e "delete" ->
  let r := run fuel token octokit (a :: repo :: e :: rest) in
  fst r = Ret tt /\ stdin (snd r) = rest /\
  calls (trace (snd r)) = [UsersGetAuthenticated] /\
  trace (snd r) =
    afterLogin u ++
      [Asked "Enter the name of the repository to edit: ";
       Asked "What do you want to do? (add/remove collaborator or delete): ";
       Log InvalidAction; Log ProgramCompleted].
Proof.
  intros Htok Hauth Ha Hadd Hrem Hdel. unfold caseInsensitiveEq in *.
  change (toLowerCase "edit") with "edit" in Ha.
  change (toLowerCase "add") with "add" in Hadd.
  change (toLowerCase "remove") with "remove" in Hrem.
  change (toLowerCase "delete") with "delete" in Hdel.
  apply String.eqb_neq in Hadd, Hrem, Hdel. cbv zeta.
  rewrite (interactive_started fuel token octokit u a _ Htok Hauth). cbv zeta.
  rewrite Ha. change (String.eqb "edit" "create") with false.
  change (String.eqb "edit" "edit") with true. cbv iota.
  erewrite bind_Ret.
  2:{ erewrite bind_Ret by apply prompt_line.
      erewrite bind_Ret by apply prompt_line.
      rewrite Hadd, Hrem, Hdel. reflexivity. }
  repeat split; reflexivity.
Qed.

Lemma invalid_edit_action_witness :
  let r := run 0 (Some "ghp_token") Samples.console
               ["Edit"; "repo"; "rename"; "alice"] in
  fst r = Ret tt /\ stdin (snd r) = ["alice"] /\
  calls (trace (snd r)) = [UsersGetAuthenticated] /\
  trace (snd r) =
    afterLogin "Owner1" ++
      [Asked "Enter the name of the repository to edit: ";
       Asked "What do you want to do? (add/remove collaborator or delete): ";
       Log InvalidAction; Log ProgramCompleted].
Proof.
  apply (invalid_edit_action 0 (Some "ghp_token") Samples.console "Owner1"
           "Edit" "repo" "rename" ["alice"] eq_refl eq_refl eq_refl);
    discriminate.
Defined.

End InteractiveEdges.
